(** * The temp-email worker: ingest, list, clear, sweep and address generation

    A shallow embedding of the Cloudflare worker of the repository (the
    module with [handleNewEmail], [getEmails], [clearEmails],
    [clearAllEmails], [saveEmail] and [generateEmailAddress]) together with
    the properties its specification states about it.

    Conventions of the embedding.
    - A JavaScript string is the list of its UTF-16 code units ([jsstring]).
      The literals of the source are written with [js], which decodes the
      UTF-8 text of the source file into code units.
    - A thrown exception is the [Throw] case of [Completion]; [try]/[catch]
      is a [match] on it.
    - The D1 database bound to [env.DB] is a table of rows together with the
      way it answers the next statement (it runs it, reports a failure, or
      throws); every handler takes the environment and returns the response
      paired with the environment it leaves behind.
    - [Date.now()] and [Math.random()] are inputs of the functions that call
      them; a value of [Math.random()] is a double, and the product and the
      floor taken of it are those of IEEE 754 arithmetic.
    - Console logging is left out; headers are those of the HTTP layer. *)

From Stdlib Require Import ZArith NArith Lia.
From stdpp Require Import base decidable option list sorting strings pretty.

Local Open Scope Z_scope.

(** ** Strings *)

Module JsString.

(** The code units of a string, each in [0, 65535]. *)
Abbreviation jsstring := (list N).

(** UTF-16 code units of one code point. *)
Definition units_of_codepoint (cp : N) : list N :=
  if (cp <? 65536)%N then [cp]
  else let v := (cp - 65536)%N in
       [(55296 + N.shiftr v 10)%N; (56320 + N.land v 1023)%N].

(** Decoder of the UTF-8 bytes of a literal: [pend] holds the bits read so
    far of the current code point, [need] the continuation bytes awaited. *)
Fixpoint utf8_decode (pend : N) (need : nat) (bs : list N) : list N :=
  match bs with
  | [] => []
  | b :: bs' =>
      match need with
      | O =>
          if (b <? 128)%N then b :: utf8_decode 0%N 0%nat bs'
          else if (b <? 224)%N then utf8_decode (N.land b 31) 1%nat bs'
          else if (b <? 240)%N then utf8_decode (N.land b 15) 2%nat bs'
          else utf8_decode (N.land b 7) 3%nat bs'
      | S O =>
          units_of_codepoint (pend * 64 + N.land b 63)%N
            ++ utf8_decode 0%N 0%nat bs'
      | S n => utf8_decode (pend * 64 + N.land b 63)%N n bs'
      end
  end.

Fixpoint bytes_of (s : string) : list N :=
  match s with
  | EmptyString => []
  | String c s' => Ascii.N_of_ascii c :: bytes_of s'
  end.

(** A literal of the source. *)
Definition js (s : string) : jsstring := utf8_decode 0%N 0%nat (bytes_of s).

(** The lower-case table of the code units below U+0100: the ASCII letters
    and the Latin-1 capitals (U+00C0..U+00DE without the multiplication
    sign).  Mapped over a string it is [String.prototype.toLowerCase] on the
    strings made of such units ([latin1]); a cased letter above U+00FF is
    left as it is here, which the runtime does not do, so that properties
    of strings outside [latin1] are stated with the runtime's function as a
    parameter (see [getEmails_with]). *)
Definition lower_unit (c : N) : N :=
  if ((65 <=? c) && (c <=? 90))%N then (c + 32)%N
  else if ((192 <=? c) && (c <=? 222) && negb (c =? 215))%N then (c + 32)%N
  else c.

Definition toLowerCase (s : jsstring) : jsstring := map lower_unit s.

(** The strings on which [toLowerCase] is the function of the runtime. *)
Definition latin1 (s : jsstring) : Prop := Forall (fun c => (c < 256)%N) s.

(** White space and line terminators, as [String.prototype.trim] strips. *)
Definition is_space (c : N) : bool :=
  ((9 <=? c) && (c <=? 13) || (c =? 32) || (c =? 160) || (c =? 5760)
   || (8192 <=? c) && (c <=? 8202) || (c =? 8232) || (c =? 8233)
   || (c =? 8239) || (c =? 8287) || (c =? 12288) || (c =? 65279))%N.

Fixpoint trimStart (s : jsstring) : jsstring :=
  match s with
  | c :: s' => if is_space c then trimStart s' else s
  | [] => []
  end.

Definition trimEnd (s : jsstring) : jsstring := rev (trimStart (rev s)).

Definition trim (s : jsstring) : jsstring := trimEnd (trimStart s).

(** [s.slice(0, n)] *)
Definition slice0 (n : nat) (s : jsstring) : jsstring := take n s.

(** [s.charAt(i)]: the unit at [i], the empty string out of range. *)
Definition charAt (s : jsstring) (i : Z) : jsstring :=
  if (i <? 0) then []
  else match s !! Z.to_nat i with
       | Some c => [c]
       | None => []
       end.

(** Decimal rendering of an integer, as [toString] and template literals
    give for a number that is an integer. *)
Definition of_Z (n : Z) : jsstring := js (pretty n).

(** A literal all of whose bytes are ASCII. *)
Definition ascii_only (s : string) : Prop :=
  Forall (fun b => (b < 128)%N) (bytes_of s).

End JsString.

Import JsString.

(** ** Numbers *)

(** A finite, non-negative double: the number [mant * 2 ^ expo].  The
    doubles are the pairs with [0 <= mant < 2 ^ 53] and [-1074 <= expo]
    (a number may have several such pairs). *)
Record double : Type := mkDouble { mant : Z; expo : Z }.

Definition is_double (d : double) : Prop :=
  0 <= mant d < 2 ^ 53 /\ -1074 <= expo d.

(** [d < 1] *)
Definition below_one (d : double) : Prop :=
  mant d = 0 \/ (expo d < 0 /\ mant d < 2 ^ (- expo d)).

(** Rounding of the integer [p] to 53 significant bits, to the nearest and
    to the even one on a tie: the result is [q * 2 ^ k]. *)
Definition round53 (p : Z) : Z * Z :=
  let k := Z.max 0 (Z.log2 p + 1 - 53) in
  let q := p / 2 ^ k in
  let r := p mod 2 ^ k in
  (if (2 ^ k <? 2 * r) || ((2 * r =? 2 ^ k) && Z.odd q) then q + 1 else q, k).

(** [d * n] for a double [d] and an integer [n] that is a double itself
    (here [chars.length]): the exact product rounded to a double. *)
Definition double_mul (d : double) (n : Z) : double :=
  let '(q, k) := round53 (mant d * n) in mkDouble q (expo d + k).

(** [Math.floor(d)] *)
Definition double_floor (d : double) : Z :=
  if expo d <? 0 then mant d / 2 ^ (- expo d) else mant d * 2 ^ expo d.

(** ** Values, exceptions, requests and responses *)

(** The values a parsed JSON body, an environment binding or a response
    field can hold.  Of a number only the integers are kept (the code tests
    numbers for truthiness and prints counts and ids); arrays and objects
    are one opaque, truthy value. *)
Inductive jsval : Type :=
| VUndefined
| VNull
| VBool (b : bool)
| VNum (n : Z)
| VStr (s : jsstring)
| VObject.

(** [ToBoolean]: what [!v], [v || w] and [v ? a : b] test. *)
Definition truthy (v : jsval) : bool :=
  match v with
  | VUndefined | VNull => false
  | VBool b => b
  | VNum n => negb (n =? 0)
  | VStr s => negb (bool_decide (s = []))
  | VObject => true
  end.

(** [v || w] *)
Definition js_or (v w : jsval) : jsval := if truthy v then v else w.

Inductive ErrorKind : Type := Error | TypeError | ReferenceError | SyntaxError.

Record JsError : Type := mkError { kind : ErrorKind; message : jsstring }.

Inductive Completion (A : Type) : Type :=
| Normal (a : A)
| Throw (e : JsError).
Arguments Normal {A} a.
Arguments Throw {A} e.

#[global] Instance completion_ret : MRet Completion := fun A a => Normal a.

#[global] Instance completion_bind : MBind Completion := fun A B k c =>
  match c with
  | Normal a => k a
  | Throw e => Throw e
  end.

(** [throw new Error(msg)] *)
Definition throw_error {A : Type} (msg : jsstring) : Completion A :=
  Throw (mkError Error msg).

(** The object [request.json()] resolves to in [handleNewEmail], by the six
    properties the worker reads; an absent property is [VUndefined]. *)
Record Email : Type := mkEmail {
  email_from : jsval;
  email_to : jsval;
  email_subject : jsval;
  email_text : jsval;
  email_content : jsval;
  email_html : jsval
}.

(** Outcome of [await request.json()]: the body does not parse, it is
    [null], or it is another value, read through its six properties (all of
    them [VUndefined] for a number, a string or an array). *)
Inductive RequestJson : Type :=
| InvalidJson (msg : jsstring)
| JsonNull
| JsonObject (email : Email).

(** One element of the array [getEmails] answers with. *)
Record EmailView : Type := mkView {
  view_id : jsstring;
  view_receivedAt : Z;
  view_from : option jsstring;
  view_to : jsstring;
  view_subject : option jsstring;
  view_text : jsstring;
  view_html : jsstring;
  view_content : option jsstring;
  view_preview : jsstring
}.

(** The value handed to [JSON.stringify] for the body: an object literal
    with its properties in source order, or the array of formatted mails. *)
Inductive Body : Type :=
| BodyObject (fields : list (string * jsval))
| BodyEmails (emails : list EmailView).

Record Response : Type := mkResponse { status : Z; body : Body }.

(** [new Response(JSON.stringify(o), {headers})]: status 200 by default. *)
Definition respond (b : Body) : Response := mkResponse 200 b.

Definition respond_status (st : Z) (b : Body) : Response := mkResponse st b.

(** Property lookup in an object body. *)
Definition field (name : string) (r : Response) : jsval :=
  match body r with
  | BodyObject fs =>
      match list_find (fun kv => fst kv = name) fs with
      | Some (_, kv) => snd kv
      | None => VUndefined
      end
  | BodyEmails _ => VUndefined
  end.

(** ** The D1 database *)

(** Modelled from the spec: the schema of table [emails] is not among the
    sources.  A row has the columns the statements of the worker name; [id]
    and [received_at] are integers, [email_address] is text, the other
    columns are text or NULL ([None]). *)
Record Row : Type := mkRow {
  id : Z;
  email_address : jsstring;
  sender : option jsstring;
  from_address : option jsstring;
  subject : option jsstring;
  content : option jsstring;
  text_content : option jsstring;
  html_content : option jsstring;
  received_at : Z;
  raw_email : option jsstring
}.

(** How the database answers a statement: it executes it, it reports
    [success: false], or the call rejects with an error. *)
Inductive D1Behaviour : Type :=
| Runs
| ReportsFailure
| Rejects (msg : jsstring).

Record D1Database : Type := mkDb {
  emails : list Row;
  behaviour : D1Behaviour
}.

(** The worker's bindings: [env.EMAIL_DOMAIN] and [env.DB], each possibly
    absent. *)
Record Env : Type := mkEnv {
  EMAIL_DOMAIN : option jsstring;
  DB : option D1Database
}.

Definition with_db (env : Env) (db : D1Database) : Env :=
  mkEnv (EMAIL_DOMAIN env) (Some db).

(** What [extractEmailData(email)] would hand to the INSERT of [saveEmail]:
    the six properties read from [emailData], typed as the columns they are
    bound to. *)
Record EmailData : Type := mkData {
  data_to : jsstring;
  data_from : option jsstring;
  data_subject : option jsstring;
  data_text : option jsstring;
  data_html : option jsstring;
  data_raw : option jsstring
}.

(** The four prepared statements of the worker with their bound values. *)
Inductive Statement : Type :=
| SelectByAddress (address : jsstring)
| DeleteByAddress (address : jsstring)
| DeleteOlderThan (cutoff : Z)
| InsertEmail (data : EmailData) (now : Z).

(** The object [stmt.all()] and [stmt.run()] resolve to. *)
Record D1Result : Type := mkResult {
  success : bool;
  results : list Row;
  meta_changes : option Z
}.

(** [ORDER BY received_at DESC]: the later row first. *)
Definition later_first (r1 r2 : Row) : Prop := received_at r2 <= received_at r1.

#[global] Instance later_first_dec : RelDecision later_first :=
  fun r1 r2 => Z_le_dec (received_at r2) (received_at r1).

Definition order_by_received_at_desc (rows : list Row) : list Row :=
  merge_sort later_first rows.

Definition has_address (a : jsstring) (r : Row) : Prop := email_address r = a.

#[global] Instance has_address_dec a r : Decision (has_address a r) :=
  list_eq_dec (email_address r) a.

Definition older_than (cutoff : Z) (r : Row) : Prop := received_at r < cutoff.

#[global] Instance older_than_dec c r : Decision (older_than c r) :=
  Z_lt_dec (received_at r) c.

(** The id of a new row: one more than the largest in the table. *)
Definition next_id (rows : list Row) : Z :=
  foldr (fun r m => Z.max (id r) m) 0 rows + 1.

Definition inserted_row (rows : list Row) (d : EmailData) (now : Z) : Row :=
  {| id := next_id rows;
     email_address := data_to d;
     sender := None;
     from_address := data_from d;
     subject := data_subject d;
     content := None;
     text_content := data_text d;
     html_content := data_html d;
     received_at := now;
     raw_email := data_raw d |}.

(** [SELECT ... WHERE email_address = ? ORDER BY received_at DESC LIMIT 100] *)
Definition select_by_address (a : jsstring) (rows : list Row) : list Row :=
  take 100 (order_by_received_at_desc (filter (has_address a) rows)).

(** The table after [DELETE FROM emails WHERE email_address = ?]. *)
Definition without_address (a : jsstring) (rows : list Row) : list Row :=
  filter (fun r => ~ has_address a r) rows.

(** The table after [DELETE FROM emails WHERE received_at < ?]. *)
Definition not_expired (cutoff : Z) (rows : list Row) : list Row :=
  filter (fun r => ~ older_than cutoff r) rows.

(** The rows a statement returns and the table it leaves, on a database
    that executes it; [meta.changes] counts the rows written or deleted. *)
Definition run_statement (s : Statement) (rows : list Row)
  : D1Result * list Row :=
  match s with
  | SelectByAddress a => (mkResult true (select_by_address a rows) (Some 0), rows)
  | DeleteByAddress a =>
      (mkResult true []
         (Some (Z.of_nat (length (filter (has_address a) rows)))),
       without_address a rows)
  | DeleteOlderThan c =>
      (mkResult true []
         (Some (Z.of_nat (length (filter (older_than c) rows)))),
       not_expired c rows)
  | InsertEmail d now =>
      (mkResult true [] (Some 1), rows ++ [inserted_row rows d now])
  end.

(** [await env.DB.prepare(sql).bind(args).all()] (or [.run()]). *)
Definition d1_execute (s : Statement) (db : D1Database)
  : Completion D1Result * D1Database :=
  match behaviour db with
  | Runs =>
      let '(res, rows') := run_statement s (emails db) in
      (Normal res, mkDb rows' (behaviour db))
  | ReportsFailure => (Normal (mkResult false [] None), db)
  | Rejects msg => (throw_error msg, db)
  end.

(** ** The worker *)

(** The identifiers bound at the top level of the worker module, and the
    globals of the Workers runtime the module refers to. *)
Definition module_bindings : list string :=
  ["corsHeaders"; "logInfo"; "logError"; "handleOptions";
   "generateEmailAddress"; "handleNewEmail"; "getEmails"; "clearEmails";
   "clearAllEmails"; "saveEmail"; "handleRequest"].

Definition runtime_globals : list string :=
  ["console"; "Response"; "JSON"; "URL"; "Date"; "Math"; "Error";
   "addEventListener"].

Definition in_scope (name : string) : bool :=
  bool_decide (name ∈ module_bindings ++ runtime_globals).

(** Evaluating an identifier: a [ReferenceError] when nothing binds it. *)
Definition resolve {A : Type} (name : string) (binding : A) : Completion A :=
  if in_scope name then Normal binding
  else Throw (mkError ReferenceError (js name ++ js " is not defined")).

(** [const chars = 'abcdefghijklmnopqrstuvwxyz0123456789'] *)
Definition chars : jsstring := js "abcdefghijklmnopqrstuvwxyz0123456789".

(** The loop of [generateEmailAddress]: [count] more rounds from round [i],
    [random i] being the value of the [i]th call of [Math.random()]. *)
Fixpoint generate_username (random : nat -> double) (count i : nat)
  (username : jsstring) : jsstring :=
  match count with
  | O => username
  | S count' =>
      generate_username random count' (S i)
        (username ++
           charAt chars
             (double_floor (double_mul (random i) (Z.of_nat (length chars)))))
  end.

Definition generateEmailAddress (random : nat -> double) (env : Env)
  : jsstring :=
  let username := generate_username random 8 0 [] in
  let domain :=
    match EMAIL_DOMAIN env with
    | Some (c :: d) => c :: d
    | _ => js "777.xyz"
    end in
  username ++ js "@" ++ domain.

(** [address.toLowerCase().trim()] *)
Definition normalize (address : jsstring) : jsstring :=
  trim (toLowerCase address).

(** [if (!email.text) { email.text = email.content || ''; }] *)
Definition default_text (email : Email) : Email :=
  if negb (truthy (email_text email))
  then mkEmail (email_from email) (email_to email) (email_subject email)
         (js_or (email_content email) (VStr [])) (email_content email)
         (email_html email)
  else email.

Section Ingest.

(** The body [extractEmailData] would have, were the identifier bound. *)
Variable extractEmailData : Email -> EmailData.

Definition saveEmail (env : Env) (email : Email) (now : Z)
  : Completion bool * Env :=
  match resolve "extractEmailData" extractEmailData with
  | Throw e => (Throw e, env)
  | Normal extract =>
      let emailData := extract email in
      match DB env with
      | None => (throw_error (js "D1数据库未配置"), env)
      | Some db =>
          let '(c, db') := d1_execute (InsertEmail emailData now) db in
          (result ← c;
           if negb (success result)
           then throw_error (js "数据库插入操作失败")
           else mret true,
           with_db env db')
      end
  end.

(** [email.to.toLowerCase().trim()] on whatever value [email.to] holds. *)
Definition to_lower_trim (v : jsval) : Completion jsstring :=
  match v with
  | VStr s => Normal (normalize s)
  | VUndefined =>
      Throw (mkError TypeError
        (js "Cannot read properties of undefined (reading 'toLowerCase')"))
  | VNull =>
      Throw (mkError TypeError
        (js "Cannot read properties of null (reading 'toLowerCase')"))
  | _ => Throw (mkError TypeError (js "email.to.toLowerCase is not a function"))
  end.

Definition handleNewEmail (env : Env) (request : RequestJson) (now : Z)
  : Response * Env :=
  let outer_catch (e : JsError) :=
    respond_status 500 (BodyObject [("error", VStr (message e))]) in
  match request with
  | InvalidJson msg => (outer_catch (mkError SyntaxError msg), env)
  | JsonNull =>
      (outer_catch (mkError TypeError
         (js "Cannot read properties of null (reading 'from')")), env)
  | JsonObject email =>
      if negb (truthy (email_from email)) || negb (truthy (email_to email))
         || negb (truthy (email_subject email))
      then
        (respond_status 400
           (BodyObject [("error", VStr (js "缺少必要的邮件字段"))]), env)
      else
        let email := default_text email in
        match to_lower_trim (email_to email) with
        | Throw e => (outer_catch e, env)
        | Normal emailAddress =>
            match DB env with
            | None =>
                (respond_status 500
                   (BodyObject [("error", VStr (js "D1数据库未配置"))]), env)
            | Some _ =>
                match saveEmail env email now with
                | (Normal _, env') =>
                    (respond (BodyObject [("success", VBool true)]), env')
                | (Throw error, env') =>
                    (respond_status 500
                       (BodyObject
                          [("error",
                            VStr (js "保存邮件失败: " ++ message error))]),
                     env')
                end
            end
        end
  end.

End Ingest.

(** [o || ''] and the truthiness test on a column that is text or NULL. *)
Definition text_or_empty (o : option jsstring) : jsstring := default [] o.

(** [preview: email.text ? email.text.slice(0, 100) : (email.subject || '无内容')] *)
Definition preview_of (text subj : option jsstring) : jsstring :=
  match text with
  | Some (c :: t) => slice0 100 (c :: t)
  | _ =>
      match subj with
      | Some (c :: s) => c :: s
      | _ => js "无内容"
      end
  end.

(** The callback of [result.results.map] in [getEmails]; the row arrives
    with [sender], [text_content], [html_content] and [received_at] renamed
    by the SELECT to [from], [text], [html] and [receivedAt]. *)
Definition format_email (normalizedAddress : jsstring) (email : Row)
  : EmailView :=
  {| view_id := of_Z (id email);
     view_receivedAt := received_at email;
     view_from := sender email;
     view_to := normalizedAddress;
     view_subject := subject email;
     view_text := text_or_empty (text_content email);
     view_html := text_or_empty (html_content email);
     view_content := content email;
     view_preview := preview_of (text_content email) (subject email) |}.

(** [getEmails]: [address] is [searchParams.get('address')], [None] when the
    parameter is missing. *)
Definition getEmails (env : Env) (address : option jsstring)
  : Response * Env :=
  match address with
  | None | Some [] =>
      (respond_status 400
         (BodyObject [("error", VStr (js "需要提供邮箱地址"))]), env)
  | Some address =>
      let normalizedAddress := normalize address in
      match DB env with
      | None =>
          (respond_status 500
             (BodyObject [("error", VStr (js "D1数据库未配置"))]), env)
      | Some db =>
          let '(c, db') := d1_execute (SelectByAddress normalizedAddress) db in
          let answer :=
            result ← c;
            if negb (success result)
            then throw_error (js "数据库查询失败")
            else mret (map (format_email normalizedAddress) (results result)) in
          match answer with
          | Normal emails => (respond (BodyEmails emails), with_db env db')
          | Throw error =>
              (respond_status 500
                 (BodyObject [("error", VStr (js "无法获取邮件"));
                              ("details", VStr (message error))]),
               with_db env db')
          end
      end
  end.

(** [result.meta?.changes || 0] *)
Definition deleted_count (result : D1Result) : Z :=
  default 0 (meta_changes result).

Definition clearEmails (env : Env) (address : option jsstring)
  : Response * Env :=
  match address with
  | None | Some [] =>
      (respond_status 400
         (BodyObject [("error", VStr (js "需要提供邮箱地址"))]), env)
  | Some address =>
      let normalizedAddress := normalize address in
      match DB env with
      | None =>
          (respond_status 500
             (BodyObject [("success", VBool false);
                          ("error", VStr (js "D1数据库未配置"))]), env)
      | Some db =>
          let '(c, db') := d1_execute (DeleteByAddress normalizedAddress) db in
          let answer :=
            result ← c;
            if negb (success result)
            then throw_error (js "数据库删除操作失败")
            else mret (deleted_count result) in
          match answer with
          | Normal deletedCount =>
              (respond
                 (BodyObject
                    [("success", VBool true);
                     ("message",
                      VStr (js "成功删除 " ++ of_Z deletedCount
                              ++ js " 封邮件"))]),
               with_db env db')
          | Throw error =>
              (respond_status 500
                 (BodyObject [("success", VBool false);
                              ("error", VStr (js "清空邮件失败"));
                              ("details", VStr (message error))]),
               with_db env db')
          end
      end
  end.

(** [getEmails] with the runtime's [String.prototype.toLowerCase] as the
    parameter [lower]: [lower address] is [address.toLowerCase()], for every
    string.  [getEmails] above is this function at the table [toLowerCase]. *)
Definition getEmails_with (lower : jsstring -> jsstring) (env : Env)
  (address : option jsstring) : Response * Env :=
  match address with
  | None | Some [] =>
      (respond_status 400
         (BodyObject [("error", VStr (js "需要提供邮箱地址"))]), env)
  | Some address =>
      let normalizedAddress := trim (lower address) in
      match DB env with
      | None =>
          (respond_status 500
             (BodyObject [("error", VStr (js "D1数据库未配置"))]), env)
      | Some db =>
          let '(c, db') := d1_execute (SelectByAddress normalizedAddress) db in
          let answer :=
            result ← c;
            if negb (success result)
            then throw_error (js "数据库查询失败")
            else mret (map (format_email normalizedAddress) (results result)) in
          match answer with
          | Normal emails => (respond (BodyEmails emails), with_db env db')
          | Throw error =>
              (respond_status 500
                 (BodyObject [("error", VStr (js "无法获取邮件"));
                              ("details", VStr (message error))]),
               with_db env db')
          end
      end
  end.

(** [clearEmails] with the runtime's [toLowerCase] as the parameter
    [lower]; [clearEmails] above is this function at [toLowerCase]. *)
Definition clearEmails_with (lower : jsstring -> jsstring) (env : Env)
  (address : option jsstring) : Response * Env :=
  match address with
  | None | Some [] =>
      (respond_status 400
         (BodyObject [("error", VStr (js "需要提供邮箱地址"))]), env)
  | Some address =>
      let normalizedAddress := trim (lower address) in
      match DB env with
      | None =>
          (respond_status 500
             (BodyObject [("success", VBool false);
                          ("error", VStr (js "D1数据库未配置"))]), env)
      | Some db =>
          let '(c, db') := d1_execute (DeleteByAddress normalizedAddress) db in
          let answer :=
            result ← c;
            if negb (success result)
            then throw_error (js "数据库删除操作失败")
            else mret (deleted_count result) in
          match answer with
          | Normal deletedCount =>
              (respond
                 (BodyObject
                    [("success", VBool true);
                     ("message",
                      VStr (js "成功删除 " ++ of_Z deletedCount
                              ++ js " 封邮件"))]),
               with_db env db')
          | Throw error =>
              (respond_status 500
                 (BodyObject [("success", VBool false);
                              ("error", VStr (js "清空邮件失败"));
                              ("details", VStr (message error))]),
               with_db env db')
          end
      end
  end.

(** [24 * 60 * 60 * 1000] *)
Definition retention_ms : Z := 24 * 60 * 60 * 1000.

(** [clearAllEmails]: [now] is the value of [Date.now()]. *)
Definition clearAllEmails (env : Env) (now : Z) : Response * Env :=
  match DB env with
  | None =>
      (respond_status 500
         (BodyObject [("success", VBool false);
                      ("error", VStr (js "D1数据库未配置"))]), env)
  | Some db =>
      let cutoffTime := now - retention_ms in
      let '(c, db') := d1_execute (DeleteOlderThan cutoffTime) db in
      let answer :=
        result ← c;
        if negb (success result)
        then throw_error (js "数据库删除操作失败")
        else mret (deleted_count result) in
      match answer with
      | Normal deletedCount =>
          (respond
             (BodyObject
                [("success", VBool true);
                 ("message",
                  VStr (js "成功删除 " ++ of_Z deletedCount
                          ++ js " 封过期邮件"))]),
           with_db env db')
      | Throw error =>
          (respond_status 500
             (BodyObject [("success", VBool false);
                          ("error", VStr (js "清空过期邮件失败"));
                          ("details", VStr (message error))]),
           with_db env db')
      end
  end.

(** ** The HTTP layer *)

(** [corsHeaders] *)
Definition corsHeaders : list (string * string) :=
  [("Access-Control-Allow-Origin", "*");
   ("Access-Control-Allow-Methods", "GET, POST, DELETE, OPTIONS");
   ("Access-Control-Allow-Headers", "Content-Type, Authorization")].

(** [{'Content-Type': 'application/json', ...corsHeaders}], the headers of
    every JSON answer but the successful list. *)
Definition json_headers : list (string * string) :=
  ("Content-Type", "application/json") :: corsHeaders.

(** [cacheHeaders] of [getEmails]. *)
Definition cacheHeaders (noCache : bool) : list (string * string) :=
  json_headers ++
    (if noCache
     then [("Cache-Control",
            "no-store, no-cache, must-revalidate, proxy-revalidate");
           ("Pragma", "no-cache");
           ("Expires", "0")]
     else [("Cache-Control", "public, max-age=5")]).

(** What a [Response] is built from: [null], a text, or a value handed to
    [JSON.stringify]. *)
Inductive HttpBody : Type :=
| NoBody
| TextBody (text : string)
| JsonBody (b : Body).

(** A response with its headers. *)
Record HttpResponse : Type := mkHttp {
  http_status : Z;
  http_headers : list (string * string);
  http_body : HttpBody
}.

(** A handler answer sent with the JSON and CORS headers. *)
Definition as_json (r : Response) : HttpResponse :=
  mkHttp (status r) json_headers (JsonBody (body r)).

(** The request as the worker reads it: [request.method], the [pathname] of
    its URL, the [address] and [no_cache] search parameters ([None] when
    missing) and what [request.json()] resolves to. *)
Record Request : Type := mkRequest {
  method : string;
  pathname : string;
  search_address : option jsstring;
  search_no_cache : option jsstring;
  json_body : RequestJson
}.

(** [handleOptions] *)
Definition handleOptions : HttpResponse := mkHttp 200 corsHeaders NoBody.

(** [getEmails] with the headers of each of its answers. *)
Definition getEmails_http (env : Env) (address no_cache : option jsstring)
  : HttpResponse * Env :=
  match address with
  | None | Some [] =>
      (mkHttp 400 json_headers
         (JsonBody (BodyObject [("error", VStr (js "需要提供邮箱地址"))])), env)
  | Some address =>
      let normalizedAddress := normalize address in
      let noCache := bool_decide (no_cache = Some (js "true")) in
      match DB env with
      | None =>
          (mkHttp 500 json_headers
             (JsonBody (BodyObject [("error", VStr (js "D1数据库未配置"))])),
           env)
      | Some db =>
          let '(c, db') := d1_execute (SelectByAddress normalizedAddress) db in
          let answer :=
            result ← c;
            if negb (success result)
            then throw_error (js "数据库查询失败")
            else mret (map (format_email normalizedAddress) (results result)) in
          match answer with
          | Normal emails =>
              (mkHttp 200 (cacheHeaders noCache) (JsonBody (BodyEmails emails)),
               with_db env db')
          | Throw error =>
              (mkHttp 500 json_headers
                 (JsonBody
                    (BodyObject [("error", VStr (js "无法获取邮件"));
                                 ("details", VStr (message error))])),
               with_db env db')
          end
      end
  end.

(** The header a [Response] made from a string without headers of its own
    gets: [new Response('Not found', {status: 404})].  Header names are
    written as the source writes them; they are compared without regard to
    case by the runtime. *)
Definition text_headers : list (string * string) :=
  [("Content-Type", "text/plain;charset=UTF-8")].

(** The [switch (path)] of [handleRequest], reached by every request that is
    neither an OPTIONS nor a DELETE of a clear route. *)
Definition route_switch (extractEmailData : Email -> EmailData)
  (random : nat -> double) (now : Z) (env : Env) (request : Request)
  : HttpResponse * option Env :=
  let path := pathname request in
  if decide (path = "/generate") then
    let address := generateEmailAddress random env in
    (as_json (respond (BodyObject [("address", VStr address)])), Some env)
  else if decide (path = "/emails") then
    let '(r, env') :=
      getEmails_http env (search_address request) (search_no_cache request) in
    (r, Some env')
  else if decide (path = "/email") then
    let '(r, env') :=
      handleNewEmail extractEmailData env (json_body request) now in
    (as_json r, Some env')
  else (mkHttp 404 text_headers (TextBody "Not found"), Some env).

(** [handleRequest]; [env] is [None] when the worker is called without its
    bindings.  The handlers are the ones above; all but [getEmails] send
    every answer with [json_headers].  No handler throws, so the [catch] of
    [handleRequest] is not reached. *)
Definition handleRequest (extractEmailData : Email -> EmailData)
  (random : nat -> double) (now : Z) (env : option Env) (request : Request)
  : HttpResponse * option Env :=
  match env with
  | None =>
      (as_json (respond_status 500
                  (BodyObject [("error", VStr (js "服务器配置错误"))])), None)
  | Some env =>
      let path := pathname request in
      if decide (method request = "OPTIONS") then (handleOptions, Some env)
      else if decide (method request = "DELETE") then
        if decide (path = "/emails/clear") then
          let '(r, env') := clearEmails env (search_address request) in
          (as_json r, Some env')
        else if decide (path = "/emails/clear-all") then
          let '(r, env') := clearAllEmails env now in
          (as_json r, Some env')
        else route_switch extractEmailData random now env request
      else route_switch extractEmailData random now env request
  end.

(** The value of a header of a response, if it is set. *)
Definition header (name : string) (r : HttpResponse) : option string :=
  (fun found => snd (snd found))
    <$> list_find (fun kv => fst kv = name) (http_headers r).

(** The same request sent with another method. *)
Definition with_method (m : string) (request : Request) : Request :=
  mkRequest m (pathname request) (search_address request)
    (search_no_cache request) (json_body request).

(** The [scheduled] handler: the sweep at the time of the trigger; its
    answer is logged and dropped. *)
Definition scheduled (env : Env) (now : Z) : Env := snd (clearAllEmails env now).

(** ** Answers named in the properties *)

(** The error of evaluating the unbound identifier in [saveEmail]. *)
Definition not_defined_error : JsError :=
  mkError ReferenceError (js "extractEmailData is not defined").

(** The answer of [handleNewEmail] when [saveEmail] throws that error. *)
Definition save_failed : Response :=
  respond_status 500
    (BodyObject
       [("error", VStr (js "保存邮件失败: extractEmailData is not defined"))]).

Definition missing_field : Response :=
  respond_status 400 (BodyObject [("error", VStr (js "缺少必要的邮件字段"))]).

Definition not_configured : jsstring := js "D1数据库未配置".

(** The answer of [handleNewEmail] and [getEmails] without [env.DB]. *)
Definition unavailable : Response :=
  respond_status 500 (BodyObject [("error", VStr not_configured)]).

(** The answer of [clearEmails] and [clearAllEmails] without [env.DB]. *)
Definition unavailable_failure : Response :=
  respond_status 500
    (BodyObject [("success", VBool false); ("error", VStr not_configured)]).

(** The answers of [clearEmails] and [clearAllEmails] after a delete. *)
Definition cleared (deletedCount : Z) : Response :=
  respond
    (BodyObject
       [("success", VBool true);
        ("message", VStr (js "成功删除 " ++ of_Z deletedCount ++ js " 封邮件"))]).

Definition swept (deletedCount : Z) : Response :=
  respond
    (BodyObject
       [("success", VBool true);
        ("message",
         VStr (js "成功删除 " ++ of_Z deletedCount ++ js " 封过期邮件"))]).

(** The answer of [getEmails] and [clearEmails] to a missing address. *)
Definition address_required : Response :=
  respond_status 400 (BodyObject [("error", VStr (js "需要提供邮箱地址"))]).

(** The message of the error a handler catches when the database does not
    execute its statement: the one the database rejects with, or the one the
    handler throws on [success: false]. *)
Definition failure_detail (reported : jsstring) (b : D1Behaviour) : jsstring :=
  match b with
  | Rejects msg => msg
  | _ => reported
  end.

Definition list_failed (details : jsstring) : Response :=
  respond_status 500
    (BodyObject [("error", VStr (js "无法获取邮件"));
                 ("details", VStr details)]).

Definition clear_failed (details : jsstring) : Response :=
  respond_status 500
    (BodyObject [("success", VBool false);
                 ("error", VStr (js "清空邮件失败"));
                 ("details", VStr details)]).

Definition sweep_failed (details : jsstring) : Response :=
  respond_status 500
    (BodyObject [("success", VBool false);
                 ("error", VStr (js "清空过期邮件失败"));
                 ("details", VStr details)]).

(** The answer of the outer [catch] of [handleNewEmail]. *)
Definition ingest_crashed (msg : jsstring) : Response :=
  respond_status 500 (BodyObject [("error", VStr msg)]).

(** The answers of [handleRequest] itself. *)
Definition not_found : HttpResponse :=
  mkHttp 404 text_headers (TextBody "Not found").

Definition misconfigured : HttpResponse :=
  as_json (respond_status 500
             (BodyObject [("error", VStr (js "服务器配置错误"))])).

(** A string of code units below U+0100, in lower case and without white
    space, as a domain name is. *)
Definition plain (s : jsstring) : Prop :=
  Forall (fun c => (c < 256)%N /\ lower_unit c = c /\ is_space c = false) s.

(** The preview as the specification words it, on the fields of a listed
    message: the first 100 code units of a non-empty text, else a non-empty
    subject, else the placeholder. *)
Definition no_content : jsstring := js "无内容".

Definition spec_preview (text : jsstring) (subj : option jsstring) : jsstring :=
  if bool_decide (text = []) then
    match subj with
    | Some s => if bool_decide (s = []) then no_content else s
    | None => no_content
    end
  else take 100 text.

(** The characters of the pattern [a-z0-9]. *)
Definition is_lower_alnum (c : N) : bool :=
  ((97 <=? c) && (c <=? 122) || (48 <=? c) && (c <=? 57))%N.

(** ** Sample data *)

Definition text_of (v : jsval) : option jsstring :=
  match v with
  | VStr s => Some s
  | _ => None
  end.

(** One possible body for the unbound [extractEmailData]: it copies the
    properties of the message. *)
Definition sample_extract (email : Email) : EmailData :=
  {| data_to := default [] (text_of (email_to email));
     data_from := text_of (email_from email);
     data_subject := text_of (email_subject email);
     data_text := text_of (email_text email);
     data_html := text_of (email_html email);
     data_raw := text_of (email_content email) |}.

Definition sample_row (n : Z) (address : string) (text subj : option string)
  (at_ms : Z) : Row :=
  {| id := n;
     email_address := js address;
     sender := Some (js "sender@example.org");
     from_address := None;
     subject := js <$> subj;
     content := None;
     text_content := js <$> text;
     html_content := None;
     received_at := at_ms;
     raw_email := None |}.

Definition sample_now : Z := 1700000000000.

Definition hour_ms : Z := 60 * 60 * 1000.

(** Two mails for one box, 25 hours and 1 hour old, and one for another. *)
Definition sample_rows : list Row :=
  [sample_row 1 "user@foo.com" (Some "old news") (Some "Old")
     (sample_now - 25 * hour_ms);
   sample_row 2 "other@foo.com" None (Some "Subject only")
     (sample_now - 2 * hour_ms);
   sample_row 3 "user@foo.com" (Some "fresh news") (Some "Fresh")
     (sample_now - 1 * hour_ms)].

Definition sample_env : Env :=
  mkEnv (Some (js "foo.com")) (Some (mkDb sample_rows Runs)).

Definition empty_env : Env := mkEnv (Some (js "foo.com")) (Some (mkDb [] Runs)).

Definition unbound_env : Env := mkEnv (Some (js "foo.com")) None.

Definition mixed_case_message : Email :=
  mkEmail (VStr (js "sender@example.org")) (VStr (js "  User@Foo.com "))
    (VStr (js "Greetings")) (VStr (js "first line")) VUndefined VUndefined.

Definition content_only_message : Email :=
  mkEmail (VStr (js "sender@example.org")) (VStr (js "user@foo.com"))
    (VStr (js "Greetings")) VUndefined (VStr (js "hello")) VUndefined.

Definition bare_message : Email :=
  mkEmail (VStr (js "sender@example.org")) (VStr (js "user@foo.com"))
    (VStr (js "Greetings")) VUndefined VUndefined VUndefined.

Definition no_subject_message : Email :=
  mkEmail (VStr (js "sender@example.org")) (VStr (js "user@foo.com"))
    VUndefined (VStr (js "first line")) VUndefined VUndefined.

(** [Math.random()] returning 0.5 at every call. *)
Definition half : nat -> double := fun _ => mkDouble 1 (-1).

(** The double 0.3333333333333333 and the largest double below 1. *)
Definition third : double := mkDouble 6004799503160661 (-54).

Definition almost_one : double := mkDouble (2 ^ 53 - 1) (-53).

Definition failing_env : Env :=
  mkEnv (Some (js "foo.com")) (Some (mkDb sample_rows ReportsFailure)).

Definition rejecting_env : Env :=
  mkEnv (Some (js "foo.com")) (Some (mkDb sample_rows (Rejects (js "D1_ERROR")))).

Definition no_domain_env : Env := mkEnv None (Some (mkDb sample_rows Runs)).

Definition numeric_to_message : Email :=
  mkEmail (VStr (js "sender@example.org")) (VNum 42) (VStr (js "Greetings"))
    VUndefined VUndefined VUndefined.

Definition sample_request (m path : string) (address : option string) : Request :=
  mkRequest m path (js <$> address) None (JsonObject content_only_message).

(** ** Properties *)

Example js_ascii : js "aZ" = [97; 90]%N.
Proof. reflexivity. Qed.

Example js_cjk : js "无内容" = [26080; 20869; 23481]%N.
Proof. reflexivity. Qed.

Example normalize_example : normalize (js "  User@Foo.com ") = js "user@foo.com".
Proof. reflexivity. Qed.

(** *** Strings *)

Lemma js_ascii_only s : ascii_only s -> js s = bytes_of s.
Proof.
  unfold js, ascii_only. induction s as [|c s IH]; [reflexivity|].
  cbn [bytes_of utf8_decode]. intros H. apply Forall_cons in H as [Hc Hs].
  apply N.ltb_lt in Hc. rewrite Hc, (IH Hs). reflexivity.
Qed.

Lemma bytes_of_inj s1 s2 : bytes_of s1 = bytes_of s2 -> s1 = s2.
Proof.
  revert s2. induction s1 as [|c1 s1 IH]; intros [|c2 s2] H; try done.
  cbn [bytes_of] in H. injection H as Hc Hs.
  f_equal; [|by apply IH].
  rewrite <- (Ascii.ascii_N_embedding c1), <- (Ascii.ascii_N_embedding c2).
  by rewrite Hc.
Qed.

Lemma pretty_N_go_ascii x s : ascii_only s -> ascii_only (pretty_N_go x s).
Proof.
  revert s. induction (N.lt_wf_0 x) as [x _ IH]; intros s Hs.
  destruct (decide (x = 0)%N) as [->|Hx]; [by rewrite pretty_N_go_0|].
  rewrite pretty_N_go_step by lia.
  apply IH; [apply N.div_lt; lia|].
  apply Forall_cons. split; [|exact Hs].
  unfold pretty_N_char. by repeat case_match.
Qed.

Lemma pretty_Z_ascii (n : Z) : ascii_only (pretty n).
Proof.
  assert (HN : forall p, ascii_only (pretty (N.pos p))).
  { intros p. unfold pretty, pretty_N. case_decide; [done|].
    apply pretty_N_go_ascii. constructor. }
  destruct n as [|p|p].
  - repeat constructor.
  - apply HN.
  - apply Forall_cons. split; [done|apply HN].
Qed.

(** Different integers print differently. *)
Lemma of_Z_inj n m : of_Z n = of_Z m -> n = m.
Proof.
  unfold of_Z. rewrite !js_ascii_only by apply pretty_Z_ascii.
  intros H. apply bytes_of_inj in H. by apply (inj pretty).
Qed.

(** The deleted count can be read off the answer. *)
Lemma cleared_inj n m : cleared n = cleared m -> n = m.
Proof.
  unfold cleared. intros H. injection H as H.
  apply app_inv_tail in H. by apply of_Z_inj.
Qed.


(** *** The environment a handler leaves behind *)

Lemma db_eta (db : D1Database) : mkDb (emails db) (behaviour db) = db.
Proof. by destruct db. Qed.

Lemma with_db_same (env : Env) (db : D1Database) :
  DB env = Some db -> with_db env db = env.
Proof. destruct env as [dom d]; simpl; intros ->; reflexivity. Qed.

(** *** Ingest *)

Lemma extractEmailData_unbound : in_scope "extractEmailData" = false.
Proof. reflexivity. Qed.

(** The first statement of [saveEmail] throws, whatever the arguments. *)
Lemma saveEmail_throws extract env email now :
  saveEmail extract env email now = (Throw not_defined_error, env).
Proof. reflexivity. Qed.

Lemma default_text_to email : email_to (default_text email) = email_to email.
Proof. unfold default_text. by destruct (negb (truthy (email_text email))). Qed.

Lemma valid_guard email :
  truthy (email_from email) = true ->
  truthy (email_to email) = true ->
  truthy (email_subject email) = true ->
  negb (truthy (email_from email)) || negb (truthy (email_to email))
  || negb (truthy (email_subject email)) = false.
Proof. by intros -> -> ->. Qed.

(** No call of [handleNewEmail] changes the environment. *)
Lemma handleNewEmail_env extract env request now :
  snd (handleNewEmail extract env request now) = env.
Proof.
  unfold handleNewEmail.
  destruct request as [msg| |email]; [reflexivity..|].
  destruct (negb (truthy (email_from email)) || negb (truthy (email_to email))
            || negb (truthy (email_subject email))); [reflexivity|].
  destruct (to_lower_trim (email_to (default_text email))); [|reflexivity].
  destruct (DB env); [|reflexivity].
  rewrite saveEmail_throws; reflexivity.
Qed.

(** A valid message with a string for [to], sent while the database is
    bound, gets the save-failure answer. *)
Lemma handleNewEmail_bound extract env db email s now :
  DB env = Some db ->
  truthy (email_from email) = true ->
  email_to email = VStr s -> s <> [] ->
  truthy (email_subject email) = true ->
  handleNewEmail extract env (JsonObject email) now = (save_failed, env).
Proof.
  intros Hdb Hfrom Hto Hs Hsubj.
  assert (Htruthy : truthy (email_to email) = true).
  { rewrite Hto; simpl. by rewrite bool_decide_eq_false_2. }
  unfold handleNewEmail.
  rewrite (valid_guard email Hfrom Htruthy Hsubj).
  rewrite default_text_to, Hto; cbn [to_lower_trim].
  rewrite Hdb, saveEmail_throws. vm_compute. reflexivity.
Qed.

(** C1. The message addressed to "  User@Foo.com " is not stored: the call
    of [saveEmail] throws on the unbound [extractEmailData], the handler
    answers with the save failure, and the list for "user@foo.com" that
    follows is empty. *)
Theorem ingest_then_list_loses_message extract now :
  handleNewEmail extract empty_env (JsonObject mixed_case_message) now
  = (save_failed, empty_env)
  /\ getEmails empty_env (Some (js "user@foo.com"))
     = (respond (BodyEmails []), empty_env).
Proof. split; vm_compute; reflexivity. Qed.

(** No call of [handleNewEmail] answers with status 200. *)
Lemma handleNewEmail_not_ok extract env request now :
  status (fst (handleNewEmail extract env request now)) <> 200.
Proof.
  unfold handleNewEmail.
  destruct request as [msg| |email]; [discriminate..|].
  destruct (negb (truthy (email_from email)) || negb (truthy (email_to email))
            || negb (truthy (email_subject email))); [discriminate|].
  destruct (to_lower_trim (email_to (default_text email))); [|discriminate].
  destruct (DB env); [|discriminate].
  rewrite saveEmail_throws; discriminate.
Qed.

(** C2. A message whose [from], [to] and [subject] pass the validation, sent
    while the database is bound, is never stored: [saveEmail] throws the
    reference error of the unbound [extractEmailData] before it reaches the
    INSERT, the handler answers with status 500 and the environment is as it
    was; when [to] is a string the answer is the save-failure body built from
    that error.  No request at all is answered with status 200 or changes
    the environment. *)
Theorem ingest_never_succeeds extract env db email now :
  DB env = Some db ->
  truthy (email_from email) = true ->
  truthy (email_to email) = true ->
  truthy (email_subject email) = true ->
  (forall e, saveEmail extract env e now = (Throw not_defined_error, env))
  /\ status (fst (handleNewEmail extract env (JsonObject email) now)) = 500
  /\ snd (handleNewEmail extract env (JsonObject email) now) = env
  /\ (forall s, email_to email = VStr s ->
        fst (handleNewEmail extract env (JsonObject email) now) = save_failed)
  /\ (forall request,
        status (fst (handleNewEmail extract env request now)) <> 200
        /\ snd (handleNewEmail extract env request now) = env).
Proof.
  intros Hdb Hfrom Hto Hsubj.
  split; [intros e; apply saveEmail_throws|].
  split; [|split; [apply handleNewEmail_env|split]].
  - unfold handleNewEmail. rewrite (valid_guard email Hfrom Hto Hsubj).
    destruct (to_lower_trim (email_to (default_text email))); [|reflexivity].
    rewrite Hdb, saveEmail_throws; reflexivity.
  - intros s Hs.
    rewrite (handleNewEmail_bound extract env db email s now); try done.
    intros ->. rewrite Hs in Hto. discriminate.
  - intros request.
    split; [apply handleNewEmail_not_ok | apply handleNewEmail_env].
Qed.

Lemma ingest_never_succeeds_witness :
  status (fst (handleNewEmail sample_extract sample_env
                 (JsonObject content_only_message) sample_now)) = 500
  /\ snd (handleNewEmail sample_extract sample_env
            (JsonObject content_only_message) sample_now) = sample_env.
Proof.
  destruct (ingest_never_succeeds sample_extract sample_env
              (mkDb sample_rows Runs) content_only_message sample_now)
    as (_ & Hst & Henv & _); [vm_compute; reflexivity..|].
  split; [exact Hst | exact Henv].
Defined.

(** C3. A message in which [from], [to] or [subject] is absent (or otherwise
    falsy) is answered with status 400 and the missing-field error; the
    environment, and with it the table, is unchanged, so that a later list
    answers as it did before. *)
Theorem ingest_missing_field extract env email now :
  truthy (email_from email) = false \/ truthy (email_to email) = false
  \/ truthy (email_subject email) = false ->
  handleNewEmail extract env (JsonObject email) now = (missing_field, env)
  /\ status missing_field = 400
  /\ forall address,
       getEmails (snd (handleNewEmail extract env (JsonObject email) now)) address
       = getEmails env address.
Proof.
  intros H.
  assert (Hguard : negb (truthy (email_from email))
                   || negb (truthy (email_to email))
                   || negb (truthy (email_subject email)) = true).
  { destruct H as [-> | [-> | ->]]; simpl; rewrite ?orb_true_r; reflexivity. }
  split; [|split; [reflexivity|]].
  - unfold handleNewEmail. rewrite Hguard. reflexivity.
  - intros address. rewrite handleNewEmail_env. reflexivity.
Qed.

Lemma ingest_missing_field_witness :
  handleNewEmail sample_extract sample_env (JsonObject no_subject_message)
    sample_now = (missing_field, sample_env).
Proof.
  apply (ingest_missing_field sample_extract sample_env no_subject_message
           sample_now).
  right; right; reflexivity.
Defined.

(** The derivation itself: [text] becomes [content], or the empty string. *)
Lemma default_text_content :
  email_text (default_text content_only_message) = VStr (js "hello")
  /\ email_text (default_text bare_message) = VStr [].
Proof. split; reflexivity. Qed.

(** C8. Neither the message with [content = "hello"] and no [text] nor the
    message with neither of them leaves a row behind: the derived message is
    handed to [saveEmail], which throws before its INSERT, so the table is
    as empty as it was and no [text_content] is stored. *)
Theorem ingest_stores_no_text extract now :
  handleNewEmail extract empty_env (JsonObject content_only_message) now
  = (save_failed, empty_env)
  /\ handleNewEmail extract empty_env (JsonObject bare_message) now
     = (save_failed, empty_env)
  /\ DB empty_env = Some (mkDb [] Runs).
Proof. repeat split; vm_compute; reflexivity. Qed.

(** *** The database binding is checked first *)

Lemma getEmails_unbound env a :
  DB env = None -> a <> [] -> getEmails env (Some a) = (unavailable, env).
Proof.
  intros Hdb Ha. unfold getEmails. destruct a as [|c a]; [done|].
  rewrite Hdb. reflexivity.
Qed.

Lemma clearEmails_unbound env a :
  DB env = None -> a <> [] ->
  clearEmails env (Some a) = (unavailable_failure, env).
Proof.
  intros Hdb Ha. unfold clearEmails. destruct a as [|c a]; [done|].
  rewrite Hdb. reflexivity.
Qed.

Lemma clearAllEmails_unbound env now :
  DB env = None -> clearAllEmails env now = (unavailable_failure, env).
Proof. intros Hdb. unfold clearAllEmails. rewrite Hdb. reflexivity. Qed.

Lemma handleNewEmail_unbound extract env email s now :
  DB env = None ->
  truthy (email_from email) = true ->
  email_to email = VStr s -> s <> [] ->
  truthy (email_subject email) = true ->
  handleNewEmail extract env (JsonObject email) now = (unavailable, env).
Proof.
  intros Hdb Hfrom Hto Hs Hsubj.
  assert (Htruthy : truthy (email_to email) = true).
  { rewrite Hto; simpl. by rewrite bool_decide_eq_false_2. }
  unfold handleNewEmail.
  rewrite (valid_guard email Hfrom Htruthy Hsubj).
  rewrite default_text_to, Hto; cbn [to_lower_trim].
  rewrite Hdb. reflexivity.
Qed.

(** With the database bound, no answer of the three store handlers carries
    the not-configured error, whatever the database does. *)
Lemma getEmails_bound_error env db a :
  DB env = Some db -> a <> [] ->
  field "error" (fst (getEmails env (Some a))) <> VStr not_configured.
Proof.
  intros Hdb Ha. unfold getEmails. destruct a as [|c a]; [done|].
  rewrite Hdb. unfold d1_execute.
  destruct (behaviour db); simpl; vm_compute; discriminate.
Qed.

Lemma clearEmails_bound_error env db a :
  DB env = Some db -> a <> [] ->
  field "error" (fst (clearEmails env (Some a))) <> VStr not_configured.
Proof.
  intros Hdb Ha. unfold clearEmails. destruct a as [|c a]; [done|].
  rewrite Hdb. unfold d1_execute.
  destruct (behaviour db); simpl; vm_compute; discriminate.
Qed.

Lemma clearAllEmails_bound_error env db now :
  DB env = Some db ->
  field "error" (fst (clearAllEmails env now)) <> VStr not_configured.
Proof.
  intros Hdb. unfold clearAllEmails.
  rewrite Hdb. unfold d1_execute.
  destruct (behaviour db); simpl; vm_compute; discriminate.
Qed.

(** C7. On requests that pass their own validation (a message with [from]
    and [subject] and a non-empty string for [to]; a non-empty [address]),
    each of ingest, list, clear and sweep tests the database binding before
    it prepares a statement: without the binding it answers with status 500
    and the error "D1数据库未配置" and returns the environment as it got it;
    with the binding no answer carries that error, whatever the database
    does with the statement. *)
Theorem unbound_database_is_reported extract env email s a now :
  truthy (email_from email) = true ->
  email_to email = VStr s -> s <> [] ->
  truthy (email_subject email) = true ->
  a <> [] ->
  (DB env = None ->
     handleNewEmail extract env (JsonObject email) now = (unavailable, env)
     /\ getEmails env (Some a) = (unavailable, env)
     /\ clearEmails env (Some a) = (unavailable_failure, env)
     /\ clearAllEmails env now = (unavailable_failure, env))
  /\ status unavailable = 500
  /\ status unavailable_failure = 500
  /\ field "error" unavailable = VStr not_configured
  /\ field "error" unavailable_failure = VStr not_configured
  /\ (forall db, DB env = Some db ->
        field "error" (fst (handleNewEmail extract env (JsonObject email) now))
          <> VStr not_configured
        /\ field "error" (fst (getEmails env (Some a))) <> VStr not_configured
        /\ field "error" (fst (clearEmails env (Some a))) <> VStr not_configured
        /\ field "error" (fst (clearAllEmails env now)) <> VStr not_configured).
Proof.
  intros Hfrom Hto Hs Hsubj Ha.
  split; [intros Hdb; repeat split|].
  - by apply (handleNewEmail_unbound extract env email s now).
  - by apply getEmails_unbound.
  - by apply clearEmails_unbound.
  - by apply clearAllEmails_unbound.
  - do 4 (split; [reflexivity|]).
    intros db Hdb. repeat split.
    + rewrite (handleNewEmail_bound extract env db email s now) by done.
      vm_compute. discriminate.
    + by apply (getEmails_bound_error env db).
    + by apply (clearEmails_bound_error env db).
    + by apply (clearAllEmails_bound_error env db).
Qed.

Lemma unbound_database_is_reported_witness :
  handleNewEmail sample_extract unbound_env (JsonObject content_only_message)
    sample_now = (unavailable, unbound_env)
  /\ getEmails unbound_env (Some (js "user@foo.com")) = (unavailable, unbound_env)
  /\ clearEmails unbound_env (Some (js "user@foo.com"))
     = (unavailable_failure, unbound_env)
  /\ clearAllEmails unbound_env sample_now = (unavailable_failure, unbound_env).
Proof.
  apply (unbound_database_is_reported sample_extract unbound_env
           content_only_message (js "user@foo.com") (js "user@foo.com")
           sample_now); try reflexivity; vm_compute; discriminate.
Defined.

(** *** List *)

#[global] Instance later_first_trans : Transitive later_first.
Proof. unfold later_first; intros x y z; lia. Qed.

#[global] Instance later_first_total : Total later_first.
Proof. unfold later_first; intros x y; lia. Qed.


Lemma order_by_perm rows : order_by_received_at_desc rows ≡ₚ rows.
Proof. apply merge_sort_Permutation. Qed.

(** What [getEmails] answers on a database that executes the SELECT. *)
Lemma getEmails_runs env db a :
  DB env = Some db -> behaviour db = Runs -> a <> [] ->
  getEmails env (Some a)
  = (respond (BodyEmails (map (format_email (normalize a))
                            (select_by_address (normalize a) (emails db)))),
     env).
Proof.
  intros Hdb Hruns Ha. unfold getEmails. destruct a as [|c a]; [done|].
  rewrite Hdb. unfold d1_execute. rewrite Hruns. simpl.
  rewrite <- Hruns, db_eta, (with_db_same env db Hdb). reflexivity.
Qed.


(** [getEmails] is [getEmails_with] at the table of the units below U+0100,
    and [clearEmails] is [clearEmails_with] at it. *)
Lemma getEmails_with_toLowerCase env address :
  getEmails_with toLowerCase env address = getEmails env address.
Proof. reflexivity. Qed.

Lemma clearEmails_with_toLowerCase env address :
  clearEmails_with toLowerCase env address = clearEmails env address.
Proof. reflexivity. Qed.

(** What [getEmails] answers on a database that executes the SELECT,
    whatever the lower-case function of the runtime is. *)
Lemma getEmails_with_runs lower env db a :
  DB env = Some db -> behaviour db = Runs -> a <> [] ->
  getEmails_with lower env (Some a)
  = (respond (BodyEmails (map (format_email (trim (lower a)))
                            (select_by_address (trim (lower a)) (emails db)))),
     env).
Proof.
  intros Hdb Hruns Ha. unfold getEmails_with. destruct a as [|c a]; [done|].
  rewrite Hdb. unfold d1_execute. rewrite Hruns. simpl.
  rewrite <- Hruns, db_eta, (with_db_same env db Hdb). reflexivity.
Qed.



Example list_sample :
  fst (getEmails sample_env (Some (js " USER@Foo.com ")))
  = respond (BodyEmails
      [format_email (js "user@foo.com")
         (sample_row 3 "user@foo.com" (Some "fresh news") (Some "Fresh")
            (sample_now - 1 * hour_ms));
       format_email (js "user@foo.com")
         (sample_row 1 "user@foo.com" (Some "old news") (Some "Old")
            (sample_now - 25 * hour_ms))]).
Proof. vm_compute. reflexivity. Qed.

(** *** Preview *)

Lemma format_email_preview n row :
  view_preview (format_email n row)
  = spec_preview (view_text (format_email n row))
      (view_subject (format_email n row)).
Proof.
  unfold format_email, spec_preview, preview_of, text_or_empty, slice0; simpl.
  destruct (text_content row) as [[|c t]|]; simpl;
    destruct (subject row) as [[|d s]|]; reflexivity.
Qed.

(** The array [getEmails] answers with is made of formatted stored rows. *)
Lemma getEmails_views env a resp env' views :
  getEmails env a = (resp, env') -> body resp = BodyEmails views ->
  exists db n, DB env = Some db
    /\ views = map (format_email n) (select_by_address n (emails db)).
Proof.
  unfold getEmails. intros Hget Hbody.
  destruct a as [[|c a]|]; [by inversion Hget; subst| |by inversion Hget; subst].
  destruct (DB env) as [db|]; [|by inversion Hget; subst].
  exists db, (normalize (c :: a)). split; [reflexivity|].
  revert Hget. unfold d1_execute.
  destruct (behaviour db); simpl; intros Hget; inversion Hget; subst;
    simpl in Hbody; by inversion Hbody.
Qed.

(** C9. Every message of a list answer has as [preview] the first 100 code
    units of its text when the text is not empty, else its subject when
    that is not empty, else the placeholder "无内容"; its text is the
    [text_content] of a stored row (the empty string for NULL) and its
    subject the [subject] of that row. *)
Theorem listed_preview env a resp env' views v :
  getEmails env a = (resp, env') ->
  body resp = BodyEmails views ->
  v ∈ views ->
  view_preview v = spec_preview (view_text v) (view_subject v)
  /\ exists db row, DB env = Some db /\ row ∈ emails db
       /\ view_text v = default [] (text_content row)
       /\ view_subject v = subject row.
Proof.
  intros Hget Hbody Hv.
  destruct (getEmails_views env a resp env' views Hget Hbody)
    as (db & n & Hdb & ->).
  apply list_elem_of_fmap in Hv as (row & -> & Hrow).
  split; [apply format_email_preview|].
  exists db, row. split; [exact Hdb|]. split; [|split; reflexivity].
  unfold select_by_address in Hrow.
  apply elem_of_take in Hrow as (i & Hrow & _).
  apply list_elem_of_lookup_2 in Hrow.
  rewrite order_by_perm in Hrow.
  by apply list_elem_of_filter in Hrow as [_ Hrow].
Qed.

Lemma listed_preview_witness :
  view_preview
    (format_email (js "other@foo.com")
       (sample_row 2 "other@foo.com" None (Some "Subject only")
          (sample_now - 2 * hour_ms)))
  = js "Subject only".
Proof.
  destruct (listed_preview sample_env (Some (js "other@foo.com"))
              (fst (getEmails sample_env (Some (js "other@foo.com"))))
              sample_env
              [format_email (js "other@foo.com")
                 (sample_row 2 "other@foo.com" None (Some "Subject only")
                    (sample_now - 2 * hour_ms))]
              (format_email (js "other@foo.com")
                 (sample_row 2 "other@foo.com" None (Some "Subject only")
                    (sample_now - 2 * hour_ms))))
    as [Hpreview _].
  - vm_compute. reflexivity.
  - vm_compute. reflexivity.
  - apply list_elem_of_here.
  - rewrite Hpreview. vm_compute. reflexivity.
Defined.

Example preview_cases :
  spec_preview (js "hello") (Some (js "Subject")) = js "hello"
  /\ spec_preview [] (Some (js "Subject")) = js "Subject"
  /\ spec_preview [] (Some []) = js "无内容"
  /\ spec_preview [] None = js "无内容"
  /\ length (spec_preview (replicate 150 97%N) None) = 100%nat.
Proof. repeat split; vm_compute; reflexivity. Qed.

(** *** Clear *)

Lemma with_db_with_db env db1 db2 : with_db (with_db env db1) db2 = with_db env db2.
Proof. reflexivity. Qed.

Lemma without_address_none a rows :
  filter (has_address a) (without_address a rows) = [].
Proof.
  unfold without_address. induction rows as [|r rows IH]; [reflexivity|].
  rewrite filter_cons. destruct (decide (~ has_address a r)) as [Hn|Hy].
  - rewrite filter_cons. by destruct (decide (has_address a r)).
  - exact IH.
Qed.

Lemma without_address_idem a rows :
  without_address a (without_address a rows) = without_address a rows.
Proof.
  unfold without_address. induction rows as [|r rows IH]; [reflexivity|].
  rewrite filter_cons. destruct (decide (~ has_address a r)) as [Hn|Hy].
  - rewrite filter_cons. destruct (decide (~ has_address a r)); [|done].
    by rewrite IH.
  - exact IH.
Qed.

(** What [clearEmails] does on a database that executes the DELETE. *)
Lemma clearEmails_runs env db a :
  DB env = Some db -> behaviour db = Runs -> a <> [] ->
  clearEmails env (Some a)
  = (cleared (Z.of_nat (length (filter (has_address (normalize a)) (emails db)))),
     with_db env (mkDb (without_address (normalize a) (emails db)) Runs)).
Proof.
  intros Hdb Hruns Ha. unfold clearEmails. destruct a as [|c a]; [done|].
  rewrite Hdb. unfold d1_execute. rewrite Hruns. reflexivity.
Qed.

(** What [clearEmails] does on a database that executes the DELETE,
    whatever the lower-case function of the runtime is. *)
Lemma clearEmails_with_runs lower env db a :
  DB env = Some db -> behaviour db = Runs -> a <> [] ->
  clearEmails_with lower env (Some a)
  = (cleared (Z.of_nat (length (filter (has_address (trim (lower a)))
                                  (emails db)))),
     with_db env (mkDb (without_address (trim (lower a)) (emails db)) Runs)).
Proof.
  intros Hdb Hruns Ha. unfold clearEmails_with. destruct a as [|c a]; [done|].
  rewrite Hdb. unfold d1_execute. rewrite Hruns. reflexivity.
Qed.

(** C6. For every lower-case function [lower] of the runtime, every
    non-empty [address] and a database that executes the DELETE,
    [clearEmails] removes the rows whose [email_address] is the normalized
    address [address.toLowerCase().trim()] and no other, and answers with
    status 200 and the message that carries their number (answers for
    different numbers differ); that number is positive when such a row
    existed.  A second call right after it answers with status 200 and the
    number 0 and leaves the table as the first call left it. *)
Theorem clear_twice lower env db a :
  DB env = Some db -> behaviour db = Runs -> a <> [] ->
  let key := trim (lower a) in
  let n := Z.of_nat (length (filter (has_address key) (emails db))) in
  let env1 := with_db env (mkDb (without_address key (emails db)) Runs) in
  clearEmails_with lower env (Some a) = (cleared n, env1)
  /\ (forall r, r ∈ without_address key (emails db)
        <-> r ∈ emails db /\ email_address r <> key)
  /\ ((exists r, r ∈ emails db /\ email_address r = key) -> 0 < n)
  /\ clearEmails_with lower env1 (Some a) = (cleared 0, env1)
  /\ status (cleared n) = 200 /\ status (cleared 0) = 200
  /\ field "message" (cleared 0) = VStr (js "成功删除 0 封邮件")
  /\ (forall m, cleared m = cleared n -> m = n).
Proof.
  intros Hdb Hruns Ha key n env1.
  split; [by apply clearEmails_with_runs|].
  split; [|split; [|split]].
  - intros r. unfold without_address. rewrite list_elem_of_filter.
    unfold has_address. tauto.
  - intros (r & Hr & Haddr). unfold n.
    assert (Hin : r ∈ filter (has_address key) (emails db)).
    { apply list_elem_of_filter. by split. }
    destruct (filter (has_address key) (emails db));
      [by apply not_elem_of_nil in Hin | simpl; lia].
  - unfold env1.
    rewrite (clearEmails_with_runs lower _
               (mkDb (without_address key (emails db)) Runs));
      [|reflexivity|reflexivity|exact Ha].
    cbn [emails]. fold key. rewrite without_address_none, without_address_idem.
    reflexivity.
  - split; [reflexivity|]. split; [reflexivity|].
    split; [vm_compute; reflexivity|]. intros m. apply cleared_inj.
Qed.

Lemma clear_twice_witness :
  clearEmails_with toLowerCase sample_env (Some (js " USER@Foo.com "))
  = (cleared 2,
     with_db sample_env
       (mkDb [sample_row 2 "other@foo.com" None (Some "Subject only")
                (sample_now - 2 * hour_ms)] Runs))
  /\ clearEmails_with toLowerCase
       (with_db sample_env
          (mkDb [sample_row 2 "other@foo.com" None (Some "Subject only")
                   (sample_now - 2 * hour_ms)] Runs))
       (Some (js " USER@Foo.com "))
     = (cleared 0,
        with_db sample_env
          (mkDb [sample_row 2 "other@foo.com" None (Some "Subject only")
                   (sample_now - 2 * hour_ms)] Runs)).
Proof.
  destruct (clear_twice toLowerCase sample_env (mkDb sample_rows Runs)
              (js " USER@Foo.com "))
    as (Hfirst & _ & _ & Hsecond & _);
    [reflexivity | reflexivity | vm_compute; discriminate |].
  split; [exact Hfirst | exact Hsecond].
Defined.

(** *** Sweep *)

Lemma clearAllEmails_runs env db now :
  DB env = Some db -> behaviour db = Runs ->
  clearAllEmails env now
  = (swept (Z.of_nat (length (filter (older_than (now - 86400000)) (emails db)))),
     with_db env (mkDb (not_expired (now - 86400000) (emails db)) Runs)).
Proof.
  intros Hdb Hruns. unfold clearAllEmails.
  rewrite Hdb. unfold d1_execute. rewrite Hruns. reflexivity.
Qed.





(** The scenario of the specification: after the sweep the list for the box
    holds the mail that was 1 hour old and not the one that was 25. *)
Example sweep_then_list :
  fst (getEmails (snd (clearAllEmails sample_env sample_now))
         (Some (js "user@foo.com")))
  = respond (BodyEmails
      [format_email (js "user@foo.com")
         (sample_row 3 "user@foo.com" (Some "fresh news") (Some "Fresh")
            (sample_now - 1 * hour_ms))]).
Proof. vm_compute. reflexivity. Qed.

(** *** Address generation *)

Lemma chars_length : length chars = 36%nat.
Proof. reflexivity. Qed.

Lemma chars_alphabet : Forall (fun c => is_lower_alnum c = true) chars.
Proof. vm_compute. repeat constructor. Qed.

Lemma round53_spec p :
  0 <= p ->
  0 <= snd (round53 p)
  /\ snd (round53 p) = Z.max 0 (Z.log2 p + 1 - 53)
  /\ 0 <= fst (round53 p)
  /\ 2 * (fst (round53 p) * 2 ^ snd (round53 p)) <= 2 * p + 2 ^ snd (round53 p).
Proof.
  intros Hp. unfold round53. cbn [fst snd].
  set (k := Z.max 0 (Z.log2 p + 1 - 53)).
  assert (Hk : 0 <= k) by lia.
  assert (Hpow : 0 < 2 ^ k) by (apply Z.pow_pos_nonneg; lia).
  pose proof (Z.div_mod p (2 ^ k) ltac:(lia)) as Hdm.
  pose proof (Z.mod_pos_bound p (2 ^ k) Hpow) as Hr.
  assert (Hq : 0 <= p / 2 ^ k) by (apply Z.div_pos; lia).
  split; [exact Hk|]. split; [reflexivity|].
  destruct ((2 ^ k <? 2 * (p mod 2 ^ k))
            || ((2 * (p mod 2 ^ k) =? 2 ^ k) && Z.odd (p / 2 ^ k))) eqn:Hup.
  - split; [lia|].
    assert (Hhalf : 2 ^ k <= 2 * (p mod 2 ^ k)).
    { apply orb_true_iff in Hup as [Hup|Hup].
      - apply Z.ltb_lt in Hup. lia.
      - apply andb_true_iff in Hup as [Hup _]. apply Z.eqb_eq in Hup. lia. }
    nia.
  - split; [lia|]. nia.
Qed.

(** [Math.floor(Math.random() * chars.length)] is an index of [chars]: the
    rounded product of a double below 1 by 36 stays below 36. *)
Lemma random_index (r : double) :
  is_double r -> below_one r ->
  0 <= double_floor (double_mul r (Z.of_nat (length chars))) < 36.
Proof.
  intros [[Hm0 Hm53] He] Hone. rewrite chars_length.
  change (Z.of_nat 36) with 36. unfold double_mul.
  pose proof (round53_spec (mant r * 36) ltac:(lia)) as Hround.
  destruct (round53 (mant r * 36)) as [q k]. cbn [fst snd] in Hround.
  destruct Hround as (Hk0 & Hk & Hq & Hle).
  assert (Hk6 : k <= 6).
  { destruct (Z.eq_dec (mant r) 0) as [Hz|Hz].
    - rewrite Hz in Hk. simpl in Hk. lia.
    - assert (Hlog : Z.log2 (mant r * 36) < 59).
      { apply Z.log2_lt_pow2; [lia|]. change (2 ^ 59) with (2 ^ 53 * 64). lia. }
      lia. }
  assert (Hpk : 0 < 2 ^ k <= 64).
  { split; [apply Z.pow_pos_nonneg; lia|].
    change 64 with (2 ^ 6). apply Z.pow_le_mono_r; lia. }
  unfold double_floor. cbn [mant expo].
  destruct Hone as [Hz|[Hneg Hlt]].
  - rewrite Hz in Hle. simpl in Hle.
    assert (Hq0 : q = 0).
    { destruct (Z.eq_dec q 0) as [Hq0|Hq0]; [exact Hq0|].
      assert (1 * 2 ^ k <= q * 2 ^ k) by (apply Z.mul_le_mono_nonneg_r; lia).
      lia. }
    subst q.
    destruct (expo r + k <? 0); rewrite ?Zdiv_0_l, ?Z.mul_0_l; lia.
  - set (E := - expo r) in *.
    assert (HE : 0 < 2 ^ E) by (apply Z.pow_pos_nonneg; lia).
    assert (Hbound : q * 2 ^ k < 36 * 2 ^ E) by lia.
    destruct (Z.ltb_spec (expo r + k) 0) as [Hlow|Hhigh].
    + assert (Hsplit : 2 ^ E = 2 ^ (- (expo r + k)) * 2 ^ k).
      { rewrite <- Z.pow_add_r by lia. f_equal. lia. }
      assert (Hd : 0 < 2 ^ (- (expo r + k))) by (apply Z.pow_pos_nonneg; lia).
      split; [apply Z.div_pos; lia|].
      apply Z.div_lt_upper_bound; [lia|]. nia.
    + assert (Hsplit : 2 ^ k = 2 ^ (expo r + k) * 2 ^ E).
      { rewrite <- Z.pow_add_r by lia. f_equal. lia. }
      assert (Hd : 0 < 2 ^ (expo r + k)) by (apply Z.pow_pos_nonneg; lia).
      split; [nia|]. nia.
Qed.

(** The product is rounded before the floor: 0.3333333333333333 * 36 is the
    double 12, and the largest double below 1 gives 35. *)
Example rounded_products :
  double_floor (double_mul third 36) = 12
  /\ double_floor (double_mul almost_one 36) = 35
  /\ generateEmailAddress (fun _ => third) sample_env = js "mmmmmmmm@foo.com".
Proof. repeat split; vm_compute; reflexivity. Qed.

Lemma charAt_chars (i : Z) :
  0 <= i < 36 ->
  exists c, charAt chars i = [c] /\ is_lower_alnum c = true /\ c ∈ chars.
Proof.
  intros Hi. unfold charAt.
  destruct (Z.ltb_spec i 0) as [Hneg|_]; [lia|].
  destruct (lookup_lt_is_Some_2 chars (Z.to_nat i)) as [c Hc].
  { rewrite chars_length. lia. }
  rewrite Hc. exists c. split; [reflexivity|].
  pose proof (list_elem_of_lookup_2 _ _ _ Hc) as Hin.
  split; [|exact Hin].
  exact (proj1 (Forall_forall _ _) chars_alphabet c Hin).
Qed.

(** The loop appends one character of [chars] per round. *)
Lemma generate_username_spec random count i username :
  (forall k, is_double (random k) /\ below_one (random k)) ->
  exists suffix,
    generate_username random count i username = username ++ suffix
    /\ length suffix = count
    /\ Forall (fun c => is_lower_alnum c = true /\ c ∈ chars) suffix.
Proof.
  intros Hrandom. revert i username.
  induction count as [|count IH]; intros i username.
  - exists []. simpl. rewrite app_nil_r. repeat split. constructor.
  - cbn [generate_username].
    destruct (charAt_chars
                (double_floor
                   (double_mul (random i) (Z.of_nat (length chars)))))
      as (c & Hc & Halnum & Hin).
    { apply random_index; apply Hrandom. }
    rewrite Hc.
    destruct (IH (S i) (username ++ [c])) as (suffix & Heq & Hlen & Hall).
    exists (c :: suffix). rewrite Heq, <- app_assoc. simpl.
    repeat split; [by rewrite Hlen|]. by constructor.
Qed.

(** C10. With every value of [Math.random()] a double in [0, 1) and a
    non-empty [EMAIL_DOMAIN], the address is a local part, "@" and the
    domain, the index of each character being the floor of the product
    rounded to a double; the
    local part has 8 characters, each one of the 36 of [chars], which are
    letters a-z and digits 0-9.  The value depends on the domain and on the
    random values only: the database binding plays no part, and the function
    returns nothing but the string. *)
Theorem generated_address_shape random env domain :
  (forall k, is_double (random k) /\ below_one (random k)) ->
  EMAIL_DOMAIN env = Some domain -> domain <> [] ->
  (exists username,
      generateEmailAddress random env = username ++ js "@" ++ domain
      /\ length username = 8%nat
      /\ Forall (fun c => is_lower_alnum c = true /\ c ∈ chars) username)
  /\ length chars = 36%nat
  /\ Forall (fun c => is_lower_alnum c = true) chars
  /\ forall db,
       generateEmailAddress random (mkEnv (EMAIL_DOMAIN env) db)
       = generateEmailAddress random env.
Proof.
  intros Hrandom Hdomain Hne.
  split; [|split; [exact chars_length|split; [exact chars_alphabet|]]].
  - destruct (generate_username_spec random 8 0 [] Hrandom)
      as (username & Heq & Hlen & Hall).
    exists username. unfold generateEmailAddress.
    rewrite Heq, Hdomain. destruct domain as [|c d]; [done|].
    repeat split; [exact Hlen | exact Hall].
  - intros db. reflexivity.
Qed.

Lemma generated_address_shape_witness :
  generateEmailAddress half sample_env = js "ssssssss@foo.com".
Proof.
  destruct (generated_address_shape half sample_env (js "foo.com"))
    as ((username & Heq & _) & _).
  - intros k. vm_compute. intuition congruence.
  - reflexivity.
  - vm_compute. discriminate.
  - vm_compute. reflexivity.
Defined.

(** ** Further properties of the handlers *)

(** Turns boolean tests on code units into facts for [lia]. *)
Ltac unbool :=
  repeat match goal with
         | H : (_ || _) = true |- _ => apply orb_true_iff in H as [H|H]
         | H : (_ && _) = true |- _ => apply andb_true_iff in H as [? ?]
         | H : negb _ = true |- _ => apply negb_true_iff in H
         | H : (_ <=? _)%N = true |- _ => apply N.leb_le in H
         | H : (_ =? _)%N = true |- _ => apply N.eqb_eq in H
         | H : (_ =? _)%N = false |- _ => apply N.eqb_neq in H
         end.

(** *** Normalization *)

(** White space is not changed by lowercasing. *)
Lemma lower_unit_space c : is_space c = true -> lower_unit c = c.
Proof.
  intros H. unfold lower_unit.
  destruct ((65 <=? c)%N && (c <=? 90)%N) eqn:H1.
  - exfalso. unfold is_space in H. unbool; lia.
  - destruct ((192 <=? c)%N && (c <=? 222)%N && negb (c =? 215)%N) eqn:H2;
      [|reflexivity].
    exfalso. unfold is_space in H. unbool; lia.
Qed.

(** Lowercasing a second time changes nothing. *)
Lemma lower_unit_idem c : lower_unit (lower_unit c) = lower_unit c.
Proof.
  unfold lower_unit at 2 3.
  destruct ((65 <=? c)%N && (c <=? 90)%N) eqn:H1.
  - unfold lower_unit.
    destruct ((65 <=? c + 32)%N && (c + 32 <=? 90)%N) eqn:H3;
      [exfalso; unbool; lia|].
    destruct ((192 <=? c + 32)%N && (c + 32 <=? 222)%N
              && negb (c + 32 =? 215)%N) eqn:H4; [exfalso; unbool; lia|].
    reflexivity.
  - destruct ((192 <=? c)%N && (c <=? 222)%N && negb (c =? 215)%N) eqn:H2.
    + unfold lower_unit.
      destruct ((65 <=? c + 32)%N && (c + 32 <=? 90)%N) eqn:H3;
        [exfalso; unbool; lia|].
      destruct ((192 <=? c + 32)%N && (c + 32 <=? 222)%N
                && negb (c + 32 =? 215)%N) eqn:H4; [exfalso; unbool; lia|].
      reflexivity.
    + unfold lower_unit. rewrite H1, H2. reflexivity.
Qed.

Lemma trimStart_suffix s : exists p, s = p ++ trimStart s.
Proof.
  induction s as [|c s [p IH]]; [by exists []|].
  cbn [trimStart]. destruct (is_space c); [|by exists []].
  exists (c :: p). by rewrite <- app_comm_cons, <- IH.
Qed.

Lemma trimStart_idem s : trimStart (trimStart s) = trimStart s.
Proof.
  induction s as [|c s IH]; [reflexivity|].
  cbn [trimStart]. destruct (is_space c) eqn:Hc; [exact IH|].
  cbn [trimStart]. by rewrite Hc.
Qed.

(** [trimStart] leaves a string that does not start with white space. *)
Lemma trimStart_head s :
  match s with c :: _ => is_space c = false | [] => True end ->
  trimStart s = s.
Proof. destruct s as [|c s]; [done|]. cbn [trimStart]. by intros ->. Qed.

Lemma trimStart_result_head s :
  match trimStart s with c :: _ => is_space c = false | [] => True end.
Proof.
  induction s as [|c s IH]; [done|].
  cbn [trimStart]. destruct (is_space c) eqn:Hc; [exact IH | exact Hc].
Qed.

(** Trimming the end keeps the first unit of a string it does not empty. *)
Lemma trimEnd_head s :
  match s with c :: _ => is_space c = false | [] => True end ->
  match trimEnd s with c :: _ => is_space c = false | [] => True end.
Proof.
  unfold trimEnd. destruct s as [|c s]; [done|]. intros Hc.
  destruct (trimStart_suffix (rev (c :: s))) as [p Hp].
  destruct (trimStart (rev (c :: s))) as [|d t] eqn:Ht; [done|].
  assert (Hrev : c :: s = rev (d :: t) ++ rev p).
  { rewrite <- rev_app_distr, <- Hp, rev_involutive. reflexivity. }
  destruct (rev (d :: t)) as [|e u] eqn:Hu.
  - apply (f_equal (@length N)) in Hu. rewrite length_rev in Hu. done.
  - simpl in Hrev. injection Hrev as -> _. exact Hc.
Qed.

Lemma trim_idem s : trim (trim s) = trim s.
Proof.
  unfold trim.
  rewrite (trimStart_head (trimEnd (trimStart s)))
    by apply trimEnd_head, trimStart_result_head.
  unfold trimEnd. rewrite rev_involutive, trimStart_idem. reflexivity.
Qed.

Lemma elem_of_rev (s : list N) c : c ∈ rev s <-> c ∈ s.
Proof. rewrite !list_elem_of_In. symmetry. apply in_rev. Qed.

Lemma trimStart_sub s c : c ∈ trimStart s -> c ∈ s.
Proof.
  destruct (trimStart_suffix s) as [p Hp]. intros H.
  rewrite Hp. apply elem_of_app. by right.
Qed.

Lemma trim_sub s c : c ∈ trim s -> c ∈ s.
Proof.
  unfold trim, trimEnd. intros H.
  apply trimStart_sub. apply (proj1 (elem_of_rev _ _)).
  apply trimStart_sub. exact (proj1 (elem_of_rev _ _) H).
Qed.

(** Normalizing twice is normalizing once. *)
Lemma normalize_idem a : normalize (normalize a) = normalize a.
Proof.
  unfold normalize.
  assert (Hfix : toLowerCase (trim (toLowerCase a)) = trim (toLowerCase a)).
  { unfold toLowerCase at 1.
    rewrite <- (map_id (trim (toLowerCase a))) at 2.
    apply map_ext_in. intros c Hc.
    apply list_elem_of_In, trim_sub in Hc.
    unfold toLowerCase in Hc. apply list_elem_of_fmap in Hc as (d & -> & _).
    apply lower_unit_idem. }
  rewrite Hfix. apply trim_idem.
Qed.

(** A string of units below U+0100, in lower case and without white space,
    is its own normal form. *)
Lemma normalize_plain s : plain s -> normalize s = s.
Proof.
  intros Hplain. unfold normalize, trim.
  assert (Hlow : toLowerCase s = s).
  { unfold toLowerCase. rewrite <- (map_id s) at 2.
    apply map_ext_in. intros c Hc. apply list_elem_of_In in Hc.
    exact (proj1 (proj2 (proj1 (Forall_forall _ _) Hplain c Hc))). }
  rewrite Hlow.
  assert (Hstart : forall t, plain t -> trimStart t = t).
  { intros t Ht. apply trimStart_head.
    destruct Ht as [|c t (_ & _ & Hc) _]; done. }
  rewrite (Hstart s Hplain). unfold trimEnd.
  rewrite Hstart, rev_involutive; [reflexivity|].
  unfold plain. apply Forall_forall. intros c Hc.
  apply (proj1 (elem_of_rev _ _)) in Hc.
  exact (proj1 (Forall_forall _ _) Hplain c Hc).
Qed.

(** *** Missing and blank addresses *)

(** X1. A list or a clear without the [address] parameter, or with an empty
    one, is answered with status 400 and the address-required error before
    the database binding is looked at: the answer is the same with the
    binding absent, failing or working, and the environment is unchanged. *)
Theorem missing_address_rejected env address :
  address = None \/ address = Some [] ->
  getEmails env address = (address_required, env)
  /\ clearEmails env address = (address_required, env)
  /\ status address_required = 400
  /\ field "error" address_required <> VStr not_configured.
Proof.
  intros [-> | ->];
    (split; [reflexivity|split; [reflexivity|split; [reflexivity|]]]);
    vm_compute; discriminate.
Qed.

Lemma missing_address_rejected_witness :
  getEmails unbound_env None = (address_required, unbound_env)
  /\ clearEmails failing_env (Some []) = (address_required, failing_env).
Proof.
  split.
  - apply (missing_address_rejected unbound_env None). by left.
  - apply (missing_address_rejected failing_env (Some [])). by right.
Defined.

Lemma normalize_blank a : Forall (fun c => is_space c = true) a -> normalize a = [].
Proof.
  intros Hspace. unfold normalize, trim.
  assert (Hstart : trimStart (toLowerCase a) = []).
  { unfold toLowerCase. induction Hspace as [|c a Hc _ IH]; [done|].
    cbn [map trimStart]. by rewrite (lower_unit_space c Hc), Hc. }
  rewrite Hstart. reflexivity.
Qed.

(** X2. An address made of white space only is not taken for a missing one:
    it passes the test, is normalized to the empty string, and the list
    answers with status 200 and the rows stored under the empty address. *)
Theorem blank_address_is_looked_up env db a :
  DB env = Some db -> behaviour db = Runs ->
  a <> [] -> Forall (fun c => is_space c = true) a ->
  normalize a = []
  /\ getEmails env (Some a)
     = (respond (BodyEmails (map (format_email [])
                               (select_by_address [] (emails db)))), env).
Proof.
  intros Hdb Hruns Ha Hspace.
  pose proof (normalize_blank a Hspace) as Hnorm.
  split; [exact Hnorm|].
  rewrite (getEmails_runs env db a Hdb Hruns Ha), Hnorm. reflexivity.
Qed.

Lemma blank_address_is_looked_up_witness :
  getEmails sample_env (Some (js "   ")) = (respond (BodyEmails []), sample_env).
Proof.
  destruct (blank_address_is_looked_up sample_env (mkDb sample_rows Runs)
              (js "   ")) as [_ Hget];
    [reflexivity | reflexivity | vm_compute; discriminate
    | vm_compute; repeat constructor |].
  rewrite Hget. vm_compute. reflexivity.
Defined.

Lemma lower_unit_latin1 c : (c < 256)%N -> (lower_unit c < 256)%N.
Proof.
  intros Hc. unfold lower_unit.
  destruct ((65 <=? c)%N && (c <=? 90)%N) eqn:H1; [unbool; lia|].
  destruct ((192 <=? c)%N && (c <=? 222)%N && negb (c =? 215)%N) eqn:H2;
    [unbool; lia|exact Hc].
Qed.

(** The normal form of a string of units below U+0100 is one too. *)
Lemma normalize_latin1 a : latin1 a -> latin1 (normalize a).
Proof.
  intros Ha. unfold latin1. apply Forall_forall. intros c Hc.
  unfold normalize in Hc. apply trim_sub in Hc.
  unfold toLowerCase in Hc. apply list_elem_of_fmap in Hc as (d & -> & Hd).
  apply lower_unit_latin1. exact (proj1 (Forall_forall _ _) Ha d Hd).
Qed.

(** X3. For an address whose code units are all below U+0100, list and
    clear see the address through its normal form only: that form is again
    made of units below U+0100, normalizing it changes nothing, and the
    answer and the effect for the address are those for its normal form,
    when that form is not empty. *)
Theorem lookup_is_normalized env a :
  latin1 a -> normalize a <> [] ->
  latin1 (normalize a)
  /\ normalize (normalize a) = normalize a
  /\ getEmails env (Some a) = getEmails env (Some (normalize a))
  /\ clearEmails env (Some a) = clearEmails env (Some (normalize a)).
Proof.
  intros Hlatin Hne.
  split; [by apply normalize_latin1|]. split; [apply normalize_idem|].
  destruct a as [|c a]; [by destruct Hne|].
  pose proof (normalize_idem (c :: a)) as Hidem.
  destruct (normalize (c :: a)) as [|d n] eqn:Hn; [done|].
  split.
  - unfold getEmails. rewrite Hn, Hidem. reflexivity.
  - unfold clearEmails. rewrite Hn, Hidem. reflexivity.
Qed.

Lemma lookup_is_normalized_witness :
  getEmails sample_env (Some (js " USER@Foo.com "))
  = getEmails sample_env (Some (js "user@foo.com")).
Proof.
  destruct (lookup_is_normalized sample_env (js " USER@Foo.com "))
    as (_ & _ & Hget & _).
  - vm_compute. repeat constructor.
  - vm_compute. discriminate.
  - rewrite Hget. vm_compute. reflexivity.
Defined.

(** *** Failures of the database *)

(** X4. When the database is bound but does not execute the statement, list,
    clear and sweep answer with status 500, their own error and, as
    [details], the message the database rejected with or the message the
    handler throws on [success: false]; the table is as it was. *)
Theorem store_failure_is_reported env db a now :
  DB env = Some db -> behaviour db <> Runs -> a <> [] ->
  getEmails env (Some a)
  = (list_failed (failure_detail (js "数据库查询失败") (behaviour db)), env)
  /\ clearEmails env (Some a)
     = (clear_failed (failure_detail (js "数据库删除操作失败") (behaviour db)),
        env)
  /\ clearAllEmails env now
     = (sweep_failed (failure_detail (js "数据库删除操作失败") (behaviour db)),
        env).
Proof.
  intros Hdb Hfail Ha. destruct a as [|c a]; [done|].
  unfold getEmails, clearEmails, clearAllEmails, d1_execute.
  rewrite Hdb. destruct (behaviour db) as [| |msg]; [done|..];
    cbn -[js normalize]; rewrite (with_db_same env db Hdb); done.
Qed.

Lemma store_failure_is_reported_witness :
  getEmails rejecting_env (Some (js "user@foo.com"))
  = (list_failed (js "D1_ERROR"), rejecting_env)
  /\ clearEmails failing_env (Some (js "user@foo.com"))
     = (clear_failed (js "数据库删除操作失败"), failing_env).
Proof.
  split.
  - destruct (store_failure_is_reported rejecting_env
                (mkDb sample_rows (Rejects (js "D1_ERROR")))
                (js "user@foo.com") sample_now) as (H & _ & _);
      [reflexivity | discriminate | vm_compute; discriminate | exact H].
  - destruct (store_failure_is_reported failing_env
                (mkDb sample_rows ReportsFailure)
                (js "user@foo.com") sample_now) as (_ & H & _);
      [reflexivity | discriminate | vm_compute; discriminate | exact H].
Defined.

Lemma list_is_read_only_env env address : snd (getEmails env address) = env.
Proof.
  unfold getEmails. destruct address as [[|c a]|]; [reflexivity| |reflexivity].
  destruct (DB env) as [db|] eqn:Hdb; [|reflexivity].
  unfold d1_execute.
  destruct (behaviour db) eqn:Hb; cbn -[js normalize];
    rewrite <- ?Hb, ?db_eta; apply (with_db_same env db Hdb).
Qed.

(** X5. A list never changes the environment: whatever the address, the
    binding and the behaviour of the database, the table after the call is
    the table before it, so that a list answers the same when repeated. *)
Theorem list_is_read_only env address :
  snd (getEmails env address) = env
  /\ forall address',
       getEmails (snd (getEmails env address)) address'
       = getEmails env address'.
Proof.
  split; [apply list_is_read_only_env|].
  intros address'. by rewrite list_is_read_only_env.
Qed.

(** *** Bodies the ingest cannot read *)

(** X6. A body that does not parse, a [null] body and a message whose [to]
    is truthy but not a string are not validation errors: the handler
    throws, its outer [catch] answers with status 500 and the message of
    the error, and this happens before the database binding is tested, so
    with or without the binding; the environment is unchanged. *)
Theorem unreadable_body_is_server_error extract env email msg now :
  truthy (email_from email) = true ->
  truthy (email_to email) = true ->
  (forall s, email_to email <> VStr s) ->
  truthy (email_subject email) = true ->
  handleNewEmail extract env (InvalidJson msg) now = (ingest_crashed msg, env)
  /\ handleNewEmail extract env JsonNull now
     = (ingest_crashed (js "Cannot read properties of null (reading 'from')"),
        env)
  /\ handleNewEmail extract env (JsonObject email) now
     = (ingest_crashed (js "email.to.toLowerCase is not a function"), env)
  /\ forall m, status (ingest_crashed m) = 500.
Proof.
  intros Hfrom Hto Hstr Hsubj.
  split; [reflexivity|]. split; [reflexivity|]. split; [|reflexivity].
  unfold handleNewEmail. rewrite (valid_guard email Hfrom Hto Hsubj).
  rewrite default_text_to.
  destruct (email_to email) as [| | | |s|]; try discriminate;
    [reflexivity..| |reflexivity].
  by destruct (Hstr s).
Qed.

Lemma unreadable_body_is_server_error_witness :
  handleNewEmail sample_extract unbound_env (JsonObject numeric_to_message)
    sample_now
  = (ingest_crashed (js "email.to.toLowerCase is not a function"), unbound_env).
Proof.
  destruct (unreadable_body_is_server_error sample_extract unbound_env
              numeric_to_message [] sample_now) as (_ & _ & H & _);
    [reflexivity | reflexivity | discriminate | reflexivity | exact H].
Defined.

(** *** Clear and list together *)

Lemma select_by_address_none a rows :
  filter (has_address a) rows = [] -> select_by_address a rows = [].
Proof. unfold select_by_address. intros ->. reflexivity. Qed.

Lemma filter_other_address a b rows :
  a <> b ->
  filter (has_address b) (without_address a rows) = filter (has_address b) rows.
Proof.
  intros Hab. unfold without_address.
  induction rows as [|r rows IH]; [reflexivity|].
  rewrite !filter_cons.
  destruct (decide (~ has_address a r)) as [Hn|Hy].
  - rewrite filter_cons, IH. reflexivity.
  - destruct (decide (has_address b r)) as [Hb|_]; [|exact IH].
    exfalso. apply Hy. unfold has_address in *. congruence.
Qed.

(** X7. On a database that executes its statements, the list for an address
    right after the clear of that address is empty, with status 200. *)
Theorem list_after_clear_is_empty env db a :
  DB env = Some db -> behaviour db = Runs -> a <> [] ->
  fst (getEmails (snd (clearEmails env (Some a))) (Some a))
  = respond (BodyEmails []).
Proof.
  intros Hdb Hruns Ha.
  rewrite (clearEmails_runs env db a Hdb Hruns Ha). cbn [snd].
  rewrite (getEmails_runs _ (mkDb (without_address (normalize a) (emails db)) Runs) a)
    by done.
  cbn [fst emails].
  rewrite select_by_address_none by apply without_address_none.
  reflexivity.
Qed.

Lemma list_after_clear_is_empty_witness :
  fst (getEmails (snd (clearEmails sample_env (Some (js "User@foo.com"))))
         (Some (js "User@foo.com")))
  = respond (BodyEmails []).
Proof.
  apply (list_after_clear_is_empty sample_env (mkDb sample_rows Runs));
    [reflexivity | reflexivity | vm_compute; discriminate].
Defined.

(** X8. On a database that executes its statements, and whatever the
    lower-case function [lower] of the runtime is, the clear of one address
    leaves the list of every address with another normal form
    [address.toLowerCase().trim()] as it was. *)
Theorem clear_leaves_other_boxes lower env db a b :
  DB env = Some db -> behaviour db = Runs -> a <> [] -> b <> [] ->
  trim (lower a) <> trim (lower b) ->
  fst (getEmails_with lower (snd (clearEmails_with lower env (Some a))) (Some b))
  = fst (getEmails_with lower env (Some b)).
Proof.
  intros Hdb Hruns Ha Hb Hab.
  rewrite (clearEmails_with_runs lower env db a Hdb Hruns Ha). cbn [snd].
  rewrite (getEmails_with_runs lower _
             (mkDb (without_address (trim (lower a)) (emails db)) Runs) b)
    by done.
  rewrite (getEmails_with_runs lower env db b Hdb Hruns Hb).
  cbn [fst emails]. unfold select_by_address.
  rewrite (filter_other_address _ _ _ Hab). reflexivity.
Qed.

Lemma clear_leaves_other_boxes_witness :
  fst (getEmails_with toLowerCase
         (snd (clearEmails_with toLowerCase sample_env
                 (Some (js "user@foo.com"))))
         (Some (js "other@foo.com")))
  = fst (getEmails_with toLowerCase sample_env (Some (js "other@foo.com"))).
Proof.
  apply (clear_leaves_other_boxes toLowerCase sample_env
           (mkDb sample_rows Runs));
    [reflexivity | reflexivity | vm_compute; discriminate..].
Defined.

(** *** Sweeps *)

Lemma not_expired_twice c1 c2 rows :
  c1 <= c2 -> not_expired c2 (not_expired c1 rows) = not_expired c2 rows.
Proof.
  intros Hle. unfold not_expired.
  induction rows as [|r rows IH]; [reflexivity|].
  rewrite !filter_cons.
  destruct (decide (~ older_than c1 r)) as [H1|H1].
  - rewrite filter_cons, IH. reflexivity.
  - destruct (decide (~ older_than c2 r)) as [H2|_]; [|exact IH].
    exfalso. unfold older_than in *. lia.
Qed.

Lemma older_than_split c1 c2 rows :
  c1 <= c2 ->
  length (filter (older_than c2) rows)
  = (length (filter (older_than c1) rows)
     + length (filter (older_than c2) (not_expired c1 rows)))%nat.
Proof.
  intros Hle. unfold not_expired.
  induction rows as [|r rows IH]; [reflexivity|].
  rewrite !filter_cons.
  destruct (decide (older_than c1 r)) as [H1|H1].
  - destruct (decide (older_than c2 r)) as [_|H2];
      [|exfalso; unfold older_than in *; lia].
    destruct (decide (~ older_than c1 r)); [done|].
    cbn [length]. rewrite IH. reflexivity.
  - destruct (decide (~ older_than c1 r)); [|done].
    rewrite filter_cons.
    destruct (decide (older_than c2 r)); cbn [length]; rewrite IH; lia.
Qed.

Lemma not_expired_none c rows : filter (older_than c) (not_expired c rows) = [].
Proof.
  unfold not_expired. induction rows as [|r rows IH]; [reflexivity|].
  rewrite filter_cons. destruct (decide (~ older_than c r)).
  - rewrite filter_cons.
    destruct (decide (older_than c r)); [tauto | exact IH].
  - exact IH.
Qed.

Lemma scheduled_runs env db now :
  DB env = Some db -> behaviour db = Runs ->
  scheduled env now
  = with_db env (mkDb (not_expired (now - 86400000) (emails db)) Runs).
Proof.
  intros Hdb Hruns. unfold scheduled.
  by rewrite (clearAllEmails_runs env db now Hdb Hruns).
Qed.

(** X9. On a database that executes its statements, two sweeps in a row
    leave the table the later one alone would leave, and their counts add up
    to its count; a second sweep at the same time removes nothing and
    reports 0. *)
Theorem sweeps_compose env db t1 t2 :
  DB env = Some db -> behaviour db = Runs -> t1 <= t2 ->
  scheduled (scheduled env t1) t2 = scheduled env t2
  /\ (exists n1 n2,
        fst (clearAllEmails env t1) = swept n1
        /\ fst (clearAllEmails (scheduled env t1) t2) = swept n2
        /\ fst (clearAllEmails env t2) = swept (n1 + n2))
  /\ fst (clearAllEmails (scheduled env t1) t1) = swept 0.
Proof.
  intros Hdb Hruns Hle.
  set (db1 := mkDb (not_expired (t1 - 86400000) (emails db)) Runs).
  assert (H1 : scheduled env t1 = with_db env db1)
    by by apply scheduled_runs.
  split; [|split].
  - rewrite H1, (scheduled_runs (with_db env db1) db1 t2) by done.
    rewrite (scheduled_runs env db t2 Hdb Hruns).
    cbn [emails db1]. rewrite not_expired_twice by lia. reflexivity.
  - eexists _, _. split; [|split].
    + by rewrite (clearAllEmails_runs env db t1 Hdb Hruns).
    + rewrite H1, (clearAllEmails_runs (with_db env db1) db1 t2) by done.
      reflexivity.
    + rewrite (clearAllEmails_runs env db t2 Hdb Hruns). cbn [fst emails db1].
      f_equal. rewrite <- Nat2Z.inj_add. f_equal.
      apply older_than_split. lia.
  - rewrite H1, (clearAllEmails_runs (with_db env db1) db1 t1) by done.
    cbn [fst emails db1]. f_equal.
    rewrite not_expired_none. reflexivity.
Qed.

Lemma sweeps_compose_witness :
  scheduled (scheduled sample_env (sample_now - hour_ms)) sample_now
  = scheduled sample_env sample_now.
Proof.
  destruct (sweeps_compose sample_env (mkDb sample_rows Runs)
              (sample_now - hour_ms) sample_now) as [H _];
    [reflexivity | reflexivity | vm_compute; discriminate | exact H].
Defined.

(** X10. On a database that executes its statements, no message listed
    after a sweep is older than 24 hours at the time of the sweep: every
    message of the answer has [receivedAt >= now - 86400000]. *)
Theorem listed_after_sweep_is_recent env db now a resp env' views :
  DB env = Some db -> behaviour db = Runs ->
  getEmails (scheduled env now) a = (resp, env') ->
  body resp = BodyEmails views ->
  Forall (fun v => now - 86400000 <= view_receivedAt v) views.
Proof.
  intros Hdb Hruns Hget Hbody.
  destruct (getEmails_views _ _ _ _ _ Hget Hbody) as (db' & n & Hdb' & ->).
  rewrite (scheduled_runs env db now Hdb Hruns) in Hdb'.
  cbn [DB with_db] in Hdb'. injection Hdb' as <-. cbn [emails].
  apply Forall_forall. intros v Hv.
  apply list_elem_of_fmap in Hv as (row & -> & Hrow).
  cbn [format_email view_receivedAt].
  unfold select_by_address in Hrow.
  apply elem_of_take in Hrow as (i & Hrow & _).
  apply list_elem_of_lookup_2 in Hrow. rewrite order_by_perm in Hrow.
  apply list_elem_of_filter in Hrow as [_ Hrow].
  unfold not_expired in Hrow. apply list_elem_of_filter in Hrow as [Hrow _].
  unfold older_than in Hrow. lia.
Qed.

Lemma listed_after_sweep_is_recent_witness :
  Forall (fun v => sample_now - 86400000 <= view_receivedAt v)
    [format_email (js "user@foo.com")
       (sample_row 3 "user@foo.com" (Some "fresh news") (Some "Fresh")
          (sample_now - 1 * hour_ms))].
Proof.
  apply (listed_after_sweep_is_recent sample_env (mkDb sample_rows Runs)
           sample_now (Some (js "user@foo.com"))
           (fst (getEmails (scheduled sample_env sample_now)
                   (Some (js "user@foo.com"))))
           (snd (getEmails (scheduled sample_env sample_now)
                   (Some (js "user@foo.com")))));
    [reflexivity | reflexivity | apply surjective_pairing
    | vm_compute; reflexivity].
Defined.

Lemma without_address_not_expired a c rows :
  without_address a (not_expired c rows) = not_expired c (without_address a rows).
Proof.
  unfold without_address, not_expired.
  induction rows as [|r rows IH]; [reflexivity|].
  rewrite !filter_cons.
  destruct (decide (~ older_than c r)), (decide (~ has_address a r));
    rewrite ?filter_cons; repeat case_decide; try done; by rewrite IH.
Qed.

(** X11. On a database that executes its statements, a sweep and the clear
    of an address commute: in either order they leave the same table. *)
Theorem sweep_and_clear_commute env db a now :
  DB env = Some db -> behaviour db = Runs -> a <> [] ->
  snd (clearEmails (scheduled env now) (Some a))
  = scheduled (snd (clearEmails env (Some a))) now.
Proof.
  intros Hdb Hruns Ha.
  rewrite (scheduled_runs env db now Hdb Hruns).
  rewrite (clearEmails_runs _ (mkDb (not_expired (now - 86400000) (emails db)) Runs) a)
    by done.
  rewrite (clearEmails_runs env db a Hdb Hruns Ha). cbn [snd].
  rewrite (scheduled_runs _ (mkDb (without_address (normalize a) (emails db)) Runs) now)
    by done.
  cbn [emails]. rewrite without_address_not_expired. reflexivity.
Qed.

Lemma sweep_and_clear_commute_witness :
  snd (clearEmails (scheduled sample_env sample_now) (Some (js "other@foo.com")))
  = scheduled (snd (clearEmails sample_env (Some (js "other@foo.com"))))
      sample_now.
Proof.
  apply (sweep_and_clear_commute sample_env (mkDb sample_rows Runs));
    [reflexivity | reflexivity | vm_compute; discriminate].
Defined.

(** *** Generated addresses *)

Lemma alnum_plain c :
  is_lower_alnum c = true ->
  (c < 256)%N /\ lower_unit c = c /\ is_space c = false.
Proof.
  intros H. unfold is_lower_alnum in H.
  split; [unbool; lia|]. split.
  - unfold lower_unit.
    destruct ((65 <=? c)%N && (c <=? 90)%N) eqn:H1; [exfalso; unbool; lia|].
    destruct ((192 <=? c)%N && (c <=? 222)%N && negb (c =? 215)%N) eqn:H2;
      [exfalso; unbool; lia|reflexivity].
  - destruct (is_space c) eqn:Hs; [|reflexivity].
    exfalso. unfold is_space in Hs. unbool; lia.
Qed.

(** X12. Without [EMAIL_DOMAIN], or with an empty one, and with every value
    of [Math.random()] a double in [0, 1), the address is made with the
    domain "777.xyz": eight characters of [chars] followed by "@777.xyz",
    sixteen code units in all. *)
Theorem default_domain_is_used random env :
  (forall k, is_double (random k) /\ below_one (random k)) ->
  EMAIL_DOMAIN env = None \/ EMAIL_DOMAIN env = Some [] ->
  exists username,
    generateEmailAddress random env = username ++ js "@777.xyz"
    /\ length username = 8%nat
    /\ Forall (fun c => is_lower_alnum c = true) username
    /\ length (generateEmailAddress random env) = 16%nat.
Proof.
  intros Hrandom Hdomain.
  destruct (generate_username_spec random 8 0 [] Hrandom)
    as (username & Heq & Hlen & Hall).
  exists username. unfold generateEmailAddress. rewrite Heq.
  assert (Hdom : match EMAIL_DOMAIN env with
                 | Some (c :: d) => c :: d
                 | _ => js "777.xyz"
                 end = js "777.xyz") by (by destruct Hdomain as [-> | ->]).
  rewrite Hdom. cbn [app]. repeat split.
  - exact Hlen.
  - eapply Forall_impl; [exact Hall|]. by intros c [H _].
  - rewrite length_app, Hlen. reflexivity.
Qed.

Lemma default_domain_is_used_witness :
  generateEmailAddress half no_domain_env = js "ssssssss@777.xyz".
Proof.
  destruct (default_domain_is_used half no_domain_env)
    as (username & Heq & _).
  - intros k. vm_compute. intuition congruence.
  - by left.
  - vm_compute. reflexivity.
Defined.

(** X13. With a domain made of code units below U+0100, in lower case and
    without white space, and every value of [Math.random()] a double in
    [0, 1), a generated address is made of units below U+0100 and is its own
    normal form, so that a list called with it looks up exactly the address
    that was handed out. *)
Theorem generated_address_is_normal random env domain :
  (forall k, is_double (random k) /\ below_one (random k)) ->
  EMAIL_DOMAIN env = Some domain -> domain <> [] -> plain domain ->
  latin1 (generateEmailAddress random env)
  /\ normalize (generateEmailAddress random env)
     = generateEmailAddress random env
  /\ generateEmailAddress random env <> []
  /\ forall db, DB env = Some db -> behaviour db = Runs ->
       getEmails env (Some (generateEmailAddress random env))
       = (respond
            (BodyEmails
               (map (format_email (generateEmailAddress random env))
                  (select_by_address (generateEmailAddress random env)
                     (emails db)))), env).
Proof.
  intros Hrandom Hdomain Hne Hplain.
  destruct (generate_username_spec random 8 0 [] Hrandom)
    as (username & Heq & Hlen & Hall).
  assert (Haddr : generateEmailAddress random env = username ++ js "@" ++ domain).
  { unfold generateEmailAddress. rewrite Heq, Hdomain.
    by destruct domain as [|c d]. }
  assert (Hwhole : plain (generateEmailAddress random env)).
  { rewrite Haddr. unfold plain.
    apply Forall_app. split.
    - eapply Forall_impl; [exact Hall|]. intros c [H _]. by apply alnum_plain.
    - apply Forall_app. split; [|exact Hplain].
      vm_compute. by repeat constructor. }
  assert (Hnorm : normalize (generateEmailAddress random env)
                  = generateEmailAddress random env)
    by by apply normalize_plain.
  assert (Hnonempty : generateEmailAddress random env <> []).
  { rewrite Haddr. destruct username; [done|discriminate]. }
  split; [eapply Forall_impl; [exact Hwhole|]; by intros c [H _]|].
  split; [exact Hnorm|]. split; [exact Hnonempty|].
  intros db Hdb Hruns.
  rewrite (getEmails_runs env db _ Hdb Hruns Hnonempty), Hnorm. reflexivity.
Qed.

Lemma generated_address_is_normal_witness :
  normalize (generateEmailAddress half sample_env)
  = generateEmailAddress half sample_env.
Proof.
  destruct (generated_address_is_normal half sample_env (js "foo.com"))
    as (_ & H & _).
  - intros k. vm_compute. intuition congruence.
  - reflexivity.
  - vm_compute. discriminate.
  - vm_compute. by repeat constructor.
  - exact H.
Defined.

(** *** Routing *)

(** [getEmails_http] answers as [getEmails] does and adds the headers. *)
Lemma getEmails_http_agrees env address no_cache :
  http_status (fst (getEmails_http env address no_cache))
  = status (fst (getEmails env address))
  /\ http_body (fst (getEmails_http env address no_cache))
     = JsonBody (body (fst (getEmails env address)))
  /\ snd (getEmails_http env address no_cache) = snd (getEmails env address).
Proof.
  unfold getEmails_http, getEmails.
  destruct address as [[|c a]|]; [done| |done].
  destruct (DB env) as [db|]; [|done].
  unfold d1_execute. by destruct (behaviour db).
Qed.

Lemma getEmails_http_env env address no_cache :
  snd (getEmails_http env address no_cache) = env.
Proof.
  destruct (getEmails_http_agrees env address no_cache) as (_ & _ & ->).
  apply list_is_read_only_env.
Qed.

Lemma route_switch_env extract random now env request :
  snd (route_switch extract random now env request) = Some env.
Proof.
  unfold route_switch. repeat case_decide; try reflexivity.
  - pose proof (getEmails_http_env env (search_address request)
                  (search_no_cache request)) as Henv.
    destruct (getEmails_http _ _ _) as [r env']. cbn [snd] in *. by subst.
  - pose proof (handleNewEmail_env extract env (json_body request) now) as Henv.
    destruct (handleNewEmail _ _ _ _) as [r env']. cbn [snd] in *. by subst.
Qed.

(** X14. An OPTIONS request is answered before any routing: whatever its
    path, parameters and body it gets status 200 with no body and the three
    CORS headers, and the environment is untouched.  Only the missing
    environment comes first: then every request, OPTIONS included, gets
    status 500 and the configuration error. *)
Theorem preflight_is_answered_first extract random now env request :
  method request = "OPTIONS" ->
  handleRequest extract random now (Some env) request = (handleOptions, Some env)
  /\ handleRequest extract random now None request = (misconfigured, None)
  /\ http_status handleOptions = 200
  /\ http_body handleOptions = NoBody
  /\ http_headers handleOptions = corsHeaders
  /\ http_status misconfigured = 500.
Proof.
  intros Hm. unfold handleRequest. rewrite Hm.
  by rewrite decide_True.
Qed.

Lemma preflight_is_answered_first_witness :
  handleRequest sample_extract half sample_now (Some sample_env)
    (sample_request "OPTIONS" "/emails/clear-all" None)
  = (handleOptions, Some sample_env).
Proof.
  apply (preflight_is_answered_first sample_extract half sample_now
           sample_env (sample_request "OPTIONS" "/emails/clear-all" None)).
  reflexivity.
Defined.

(** X15. On the paths "/generate", "/emails" and "/email" the method is not
    looked at: any two methods other than OPTIONS, DELETE among them, get
    the same answer and the same effect. *)
Theorem method_is_ignored_on_routes extract random now env request m :
  method request <> "OPTIONS" -> m <> "OPTIONS" ->
  pathname request = "/generate" \/ pathname request = "/emails"
  \/ pathname request = "/email" ->
  handleRequest extract random now env (with_method m request)
  = handleRequest extract random now env request.
Proof.
  intros Hm1 Hm2 Hpath. destruct env as [env|]; [|reflexivity].
  assert (Hswitch : route_switch extract random now env (with_method m request)
                    = route_switch extract random now env request) by done.
  unfold handleRequest. cbn [method pathname with_method].
  rewrite !(decide_False (P := _ = "OPTIONS")) by done.
  assert (Hnot : pathname request <> "/emails/clear"
                 /\ pathname request <> "/emails/clear-all").
  { destruct Hpath as [-> | [-> | ->]]; split; discriminate. }
  destruct Hnot as [H1 H2].
  rewrite !(decide_False (P := pathname request = _)) by done.
  rewrite Hswitch. by repeat case_decide.
Qed.

Lemma method_is_ignored_on_routes_witness :
  handleRequest sample_extract half sample_now (Some sample_env)
    (sample_request "DELETE" "/emails" (Some "user@foo.com"))
  = handleRequest sample_extract half sample_now (Some sample_env)
      (sample_request "GET" "/emails" (Some "user@foo.com")).
Proof.
  apply (method_is_ignored_on_routes sample_extract half sample_now
           (Some sample_env)
           (sample_request "GET" "/emails" (Some "user@foo.com")) "DELETE");
    [discriminate | discriminate | right; left; reflexivity].
Defined.

(** X16. The two clear routes exist for DELETE only: sent with any other
    method but OPTIONS, "/emails/clear" and "/emails/clear-all" get the
    plain text answer "Not found" with status 404, whose only header is the
    text content type (no CORS header), and nothing is deleted. *)
Theorem clear_routes_need_delete extract random now env request :
  method request <> "OPTIONS" -> method request <> "DELETE" ->
  pathname request = "/emails/clear" \/ pathname request = "/emails/clear-all" ->
  handleRequest extract random now (Some env) request = (not_found, Some env)
  /\ http_status not_found = 404
  /\ http_body not_found = TextBody "Not found"
  /\ http_headers not_found = [("Content-Type", "text/plain;charset=UTF-8")]
  /\ header "Access-Control-Allow-Origin" not_found = None.
Proof.
  intros Hm1 Hm2 Hpath. unfold handleRequest.
  rewrite !decide_False by done.
  unfold route_switch.
  by destruct Hpath as [-> | ->].
Qed.

Lemma clear_routes_need_delete_witness :
  handleRequest sample_extract half sample_now (Some sample_env)
    (sample_request "GET" "/emails/clear" (Some "user@foo.com"))
  = (not_found, Some sample_env).
Proof.
  apply (clear_routes_need_delete sample_extract half sample_now sample_env
           (sample_request "GET" "/emails/clear" (Some "user@foo.com")));
    [discriminate | discriminate | left; reflexivity].
Defined.

Lemma clearEmails_changes env address :
  snd (clearEmails env address) <> env ->
  exists db, DB env = Some db /\ behaviour db = Runs.
Proof.
  unfold clearEmails. destruct address as [[|c a]|]; [done| |done].
  destruct (DB env) as [db|] eqn:Hdb; [|done].
  unfold d1_execute. destruct (behaviour db) eqn:Hb; cbn -[js normalize].
  - intros _. by exists db.
  - rewrite (with_db_same env db Hdb). done.
  - rewrite (with_db_same env db Hdb). done.
Qed.

Lemma clearAllEmails_changes env now :
  snd (clearAllEmails env now) <> env ->
  exists db, DB env = Some db /\ behaviour db = Runs.
Proof.
  unfold clearAllEmails.
  destruct (DB env) as [db|] eqn:Hdb; [|done].
  unfold d1_execute. destruct (behaviour db) eqn:Hb; cbn -[js].
  - intros _. by exists db.
  - rewrite (with_db_same env db Hdb). done.
  - rewrite (with_db_same env db Hdb). done.
Qed.

(** X17. A request changes the environment only if it is a DELETE of
    "/emails/clear" or "/emails/clear-all" on a database that executes the
    statement: no generate, list, ingest, OPTIONS or unknown request, and no
    request at all while the database fails, leaves another table behind. *)
Theorem only_delete_routes_change_the_store extract random now env request :
  snd (handleRequest extract random now (Some env) request) <> Some env ->
  method request = "DELETE"
  /\ (pathname request = "/emails/clear"
      \/ pathname request = "/emails/clear-all")
  /\ exists db, DB env = Some db /\ behaviour db = Runs.
Proof.
  unfold handleRequest.
  destruct (decide (method request = "OPTIONS")) as [_|_]; [done|].
  destruct (decide (method request = "DELETE")) as [Hdel|_].
  - destruct (decide (pathname request = "/emails/clear")) as [Hp|_].
    + pose proof (clearEmails_changes env (search_address request)) as Hch.
      destruct (clearEmails env (search_address request)) as [r env'].
      cbn [snd] in *. intros Hne. split; [done|]. split; [by left|].
      apply Hch. congruence.
    + destruct (decide (pathname request = "/emails/clear-all")) as [Hp|_].
      * pose proof (clearAllEmails_changes env now) as Hch.
        destruct (clearAllEmails env now) as [r env'].
        cbn [snd] in *. intros Hne. split; [done|]. split; [by right|].
        apply Hch. congruence.
      * by rewrite route_switch_env.
  - by rewrite route_switch_env.
Qed.

Lemma only_delete_routes_change_the_store_witness :
  method (sample_request "DELETE" "/emails/clear" (Some "user@foo.com"))
  = "DELETE"
  /\ (pathname (sample_request "DELETE" "/emails/clear" (Some "user@foo.com"))
      = "/emails/clear"
      \/ pathname (sample_request "DELETE" "/emails/clear" (Some "user@foo.com"))
         = "/emails/clear-all")
  /\ exists db, DB sample_env = Some db /\ behaviour db = Runs.
Proof.
  apply (only_delete_routes_change_the_store sample_extract half sample_now
           sample_env
           (sample_request "DELETE" "/emails/clear" (Some "user@foo.com"))).
  vm_compute. discriminate.
Defined.

Lemma handleNewEmail_status extract env request now :
  status (fst (handleNewEmail extract env request now)) = 400
  \/ status (fst (handleNewEmail extract env request now)) = 500.
Proof.
  unfold handleNewEmail.
  destruct request as [msg| |email]; [by right..|].
  destruct (negb (truthy (email_from email)) || negb (truthy (email_to email))
            || negb (truthy (email_subject email))); [by left|].
  destruct (to_lower_trim (email_to (default_text email))); [|by right].
  destruct (DB env); [|by right].
  rewrite saveEmail_throws. by right.
Qed.

Lemma clearEmails_status env address :
  status (fst (clearEmails env address)) = 200
  \/ status (fst (clearEmails env address)) = 400
  \/ status (fst (clearEmails env address)) = 500.
Proof.
  unfold clearEmails. destruct address as [[|c a]|]; [by right; left| |by right; left].
  destruct (DB env) as [db|]; [|by right; right].
  unfold d1_execute. destruct (behaviour db); cbn -[js normalize]; auto.
Qed.

Lemma clearAllEmails_status env now :
  status (fst (clearAllEmails env now)) = 200
  \/ status (fst (clearAllEmails env now)) = 500.
Proof.
  unfold clearAllEmails. destruct (DB env) as [db|]; [|by right].
  unfold d1_execute. destruct (behaviour db); cbn -[js]; auto.
Qed.

Lemma getEmails_http_shape env address no_cache :
  (http_status (fst (getEmails_http env address no_cache)) = 200
   /\ http_headers (fst (getEmails_http env address no_cache))
      = cacheHeaders (bool_decide (no_cache = Some (js "true"))))
  \/ ((http_status (fst (getEmails_http env address no_cache)) = 400
       \/ http_status (fst (getEmails_http env address no_cache)) = 500)
      /\ http_headers (fst (getEmails_http env address no_cache)) = json_headers).
Proof.
  unfold getEmails_http.
  destruct address as [[|c a]|]; [by right; split; [left|]| |by right; split; [left|]].
  destruct (DB env) as [db|]; [|by right; split; [right|]].
  unfold d1_execute. destruct (behaviour db); cbn -[js normalize cacheHeaders].
  - by left.
  - by right; split; [right|].
  - by right; split; [right|].
Qed.

(** X18. Every answer of the worker but the 404 is sent with the CORS
    header [Access-Control-Allow-Origin: *] and has status 200, 400 or 500;
    the "Not found" answer, a plain text, has no CORS header. *)
Theorem answers_carry_cors extract random now env request :
  (fst (handleRequest extract random now env request) = not_found
   /\ header "Access-Control-Allow-Origin" not_found = None)
  \/ (header "Access-Control-Allow-Origin"
        (fst (handleRequest extract random now env request)) = Some "*"
      /\ (http_status (fst (handleRequest extract random now env request)) = 200
          \/ http_status (fst (handleRequest extract random now env request)) = 400
          \/ http_status (fst (handleRequest extract random now env request)) = 500)).
Proof.
  assert (Hjson : forall r : Response,
             header "Access-Control-Allow-Origin" (as_json r) = Some "*") by done.
  assert (Hswitch : forall env',
    (fst (route_switch extract random now env' request) = not_found
     /\ header "Access-Control-Allow-Origin" not_found = None)
    \/ (header "Access-Control-Allow-Origin"
          (fst (route_switch extract random now env' request)) = Some "*"
        /\ (http_status (fst (route_switch extract random now env' request)) = 200
            \/ http_status (fst (route_switch extract random now env' request)) = 400
            \/ http_status (fst (route_switch extract random now env' request)) = 500))).
  { intros env'. unfold route_switch. repeat case_decide.
    - right. split; [done|by left].
    - right.
      destruct (getEmails_http_shape env' (search_address request)
                  (search_no_cache request)) as [[Hst Hh]|[Hst Hh]];
        destruct (getEmails_http _ _ _) as [r e]; cbn [fst] in *;
        unfold header; rewrite Hh.
      + split; [by destruct (bool_decide _)|by left].
      + split; [done|]. destruct Hst; auto.
    - right.
      pose proof (handleNewEmail_status extract env' (json_body request) now) as Hst.
      destruct (handleNewEmail _ _ _ _) as [r e]; cbn [fst] in *.
      split; [done|]. cbn [as_json http_status]. destruct Hst; auto.
    - by left. }
  destruct env as [env|]; [|right; split; [done|by right; right]].
  unfold handleRequest. repeat case_decide.
  - right. split; [done|by left].
  - right. pose proof (clearEmails_status env (search_address request)) as Hst.
    destruct (clearEmails _ _) as [r e]; cbn [fst] in *.
    split; [done|exact Hst].
  - right. pose proof (clearAllEmails_status env now) as Hst.
    destruct (clearAllEmails _ _) as [r e]; cbn [fst] in *.
    split; [done|]. cbn [as_json http_status]. destruct Hst; auto.
  - apply Hswitch.
  - apply Hswitch.
Qed.

(** X19. A successful list is sent with [Cache-Control: public, max-age=5],
    unless the [no_cache] parameter is exactly "true": then it is sent with
    the no-store value, [Pragma] and [Expires].  An answer of the list that
    is not a success carries no [Cache-Control].  In all cases the status
    and the body are those of [getEmails] and the content type is JSON. *)
Theorem list_cache_control env address no_cache :
  (http_status (fst (getEmails_http env address no_cache)) = 200 ->
   header "Cache-Control" (fst (getEmails_http env address no_cache))
   = Some (if bool_decide (no_cache = Some (js "true"))
           then "no-store, no-cache, must-revalidate, proxy-revalidate"
           else "public, max-age=5")
   /\ header "Pragma" (fst (getEmails_http env address no_cache))
      = (if bool_decide (no_cache = Some (js "true"))
         then Some "no-cache" else None)
   /\ header "Expires" (fst (getEmails_http env address no_cache))
      = (if bool_decide (no_cache = Some (js "true")) then Some "0" else None))
  /\ (http_status (fst (getEmails_http env address no_cache)) <> 200 ->
      header "Cache-Control" (fst (getEmails_http env address no_cache)) = None)
  /\ header "Content-Type" (fst (getEmails_http env address no_cache))
     = Some "application/json"
  /\ http_status (fst (getEmails_http env address no_cache))
     = status (fst (getEmails env address))
  /\ http_body (fst (getEmails_http env address no_cache))
     = JsonBody (body (fst (getEmails env address))).
Proof.
  destruct (getEmails_http_agrees env address no_cache) as (Hst & Hbody & _).
  destruct (getEmails_http_shape env address no_cache) as [[H200 Hh]|[Herr Hh]];
    unfold header; rewrite Hh.
  - split; [|split; [done|split; [by destruct (bool_decide _)|done]]].
    intros _. by destruct (bool_decide _).
  - split; [intros H200; destruct Herr; congruence|].
    split; [done|]. done.
Qed.

Example cache_control_cases :
  header "Cache-Control"
    (fst (getEmails_http sample_env (Some (js "user@foo.com")) None))
  = Some "public, max-age=5"
  /\ header "Cache-Control"
       (fst (getEmails_http sample_env (Some (js "user@foo.com"))
               (Some (js "TRUE"))))
     = Some "public, max-age=5"
  /\ header "Cache-Control"
       (fst (getEmails_http sample_env (Some (js "user@foo.com"))
               (Some (js "true"))))
     = Some "no-store, no-cache, must-revalidate, proxy-revalidate".
Proof. repeat split; vm_compute; reflexivity. Qed.
